(** * Outer Header Creation IE decoder (package pfcp)

    A shallow embedding of [ParseOuterHeaderCreation] and of the presence
    methods of [OuterHeaderCreationFields], as written in
    [pfcp/outer_header.go], together with the earlier copy of the same
    decoder, and the properties of both. *)

From Stdlib Require Import ZArith Lia String Ascii.
From Stdlib Require Import Strings.Byte.
From Stdlib Require Import Decimal DecimalString.
From stdpp Require Import base list.

Local Open Scope string_scope.
Local Open Scope nat_scope.

(** ** Go values *)

(** [uint8] is [Byte.byte]; [u8] gives its value as an integer. *)
Definition u8 (b : byte) : Z := Z.of_N (Byte.to_N b).

(** Shifts of [uint16] and [uint32] values drop the bits that leave the
    word. *)
Definition shl16 (x n : Z) : Z := (Z.shiftl x n mod 2 ^ 16)%Z.
Definition shl32 (x n : Z) : Z := (Z.shiftl x n mod 2 ^ 32)%Z.

(** The conversion [uint8(x)] keeps the low eight bits. *)
Definition to_uint8 (x : Z) : Z := (x mod 2 ^ 8)%Z.

(** A call of the decoder either runs on ([Next]), leaves the function
    with its results ([Return]) or stops in a run-time panic ([Panic]: an
    index or a slice bound out of range). *)
Inductive control (R A : Type) : Type :=
| Next (a : A)
| Return (r : R)
| Panic.
Arguments Next {R A} a.
Arguments Return {R A} r.
Arguments Panic {R A}.

Definition bind {R A B : Type} (m : control R A) (k : A -> control R B)
  : control R B :=
  match m with
  | Next a => k a
  | Return r => Return r
  | Panic => Panic
  end.

Notation "'let!' x ':=' m 'in' k" := (bind m (fun x => k))
  (at level 10, x pattern, m at level 100, k at level 200,
   format "'[v' 'let!'  x  ':='  m  'in' '/' k ']'").

(** What the caller receives: the two results, or nothing after a panic. *)
Definition call {R : Type} (m : control R R) : option R :=
  match m with
  | Next r => Some r
  | Return r => Some r
  | Panic => None
  end.

(** [payload[i]]: panics out of range. *)
Definition index {R : Type} (payload : list byte) (i : nat)
  : control R byte :=
  match payload !! i with
  | Some b => Next b
  | None => Panic
  end.

(** ** Byte slices that share the payload's backing array

    The decoder keeps two sub-slices of its argument in its result. A
    [net.IP] is a slice header: it is nil, or it is a window
    [payload[off : off+len]] onto the caller's array, or it points to an
    array of its own, allocated by the [net] package. *)
Inductive IP : Type :=
| IPnil
| IPshared (off len : nat)
| IPowned (bs : list byte).

(** The bytes seen through an [IP] while the caller's array holds [buf]. *)
Definition IP_bytes (buf : list byte) (ip : IP) : list byte :=
  match ip with
  | IPnil => []
  | IPshared off len => take len (drop off buf)
  | IPowned bs => bs
  end.

(** [payload[lo:hi]]: no copy; panics when the bounds are out of range
    (the capacity of [payload] is taken to be its length). *)
Definition slice {R : Type} (payload : list byte) (lo hi : nat)
  : control R IP :=
  if (lo <=? hi) && (hi <=? length payload)
  then Next (IPshared lo (hi - lo))
  else Panic.

(** [ip[lo:hi]] for an [IP] whose bounds are known to be in range. *)
Definition IP_sub (ip : IP) (lo hi : nat) : IP :=
  match ip with
  | IPnil => IPnil
  | IPshared off _ => IPshared (off + lo) (hi - lo)
  | IPowned bs => IPowned (take (hi - lo) (drop lo bs))
  end.

(** Package [net] of the Go library: [IP.To4], [IP.To16] and [IPv4]. *)
Module net.

Definition IPv4len : nat := 4.
Definition IPv6len : nat := 16.

Definition v4InV6Prefix : list byte :=
  [x00; x00; x00; x00; x00; x00; x00; x00; x00; x00; xff; xff].

Definition IPv4 (a b c d : byte) : IP :=
  IPowned (v4InV6Prefix ++ [a; b; c; d]).

Definition isZeros (p : list byte) : bool :=
  forallb (fun b => Byte.eqb b x00) p.

(** A slice of length 4 is returned as it is, not copied. *)
Definition To4 (buf : list byte) (ip : IP) : IP :=
  let bs := IP_bytes buf ip in
  if length bs =? IPv4len then ip
  else if (length bs =? IPv6len)
          && isZeros (take 10 bs)
          && Byte.eqb (nth 10 bs x00) xff
          && Byte.eqb (nth 11 bs x00) xff
  then IP_sub ip 12 16
  else IPnil.

(** A slice of length 16 is returned as it is, not copied. *)
Definition To16 (buf : list byte) (ip : IP) : IP :=
  let bs := IP_bytes buf ip in
  if length bs =? IPv4len
  then IPv4 (nth 0 bs x00) (nth 1 bs x00) (nth 2 bs x00) (nth 3 bs x00)
  else if length bs =? IPv6len then ip
  else IPnil.

End net.

(** ** Errors *)

(** An error value carries its message. [errorString] is what [errors.New]
    of the Go library and [fmt.Errorf] (without [%w]) build; [fundamental]
    is what [errors.New] of [github.com/pkg/errors] builds (its recorded
    call stack is left out). *)
Inductive error : Type :=
| errorString (s : string)
| fundamental (msg : string).

Definition Error (e : error) : string :=
  match e with
  | errorString s => s
  | fundamental msg => msg
  end.

Definition itoa (n : nat) : string :=
  NilEmpty.string_of_uint (Nat.to_uint n).

(** [fmt.Sprintf(format, n)] for a format whose only verb is [%d]. *)
Fixpoint Sprintf (format : string) (n : nat) : string :=
  match format with
  | EmptyString => EmptyString
  | String c rest =>
      match rest with
      | String d rest' =>
          if Ascii.eqb c "%" && Ascii.eqb d "d"
          then itoa n ++ rest'
          else String c (Sprintf rest n)
      | EmptyString => String c EmptyString
      end
  end.

Module errors.
Definition New (text : string) : error := errorString text.
End errors.

Module pkg_errors.
Definition New (message : string) : error := fundamental message.
End pkg_errors.

Module fmt.
Definition Errorf (format : string) (n : nat) : error :=
  errorString (Sprintf format n).
End fmt.

(** [strings.Contains(s, substr)]. *)
Fixpoint Contains (s substr : string) : bool :=
  String.prefix substr s ||
  match s with
  | EmptyString => false
  | String _ rest => Contains rest substr
  end.

(** ** pfcp/outer_header.go *)

Module OuterHeader.

Record OuterHeaderCreationFields : Type := mkFields {
  OuterHeaderCreationDescription : Z;   (* uint16 *)
  TEID : Z;                             (* uint32 *)
  IPv4Address : IP;
  IPv6Address : IP;
  PortNumber : Z;                       (* uint16 *)
  CTag : Z;                             (* uint32 *)
  STag : Z                              (* uint32 *)
}.

(** [&OuterHeaderCreationFields{}]: every field at its zero value. *)
Definition zero : OuterHeaderCreationFields :=
  mkFields 0 0 IPnil IPnil 0 0 0.

(** The assignments [f.X = v]. *)
Definition set_Description f v :=
  mkFields v (TEID f) (IPv4Address f) (IPv6Address f) (PortNumber f)
    (CTag f) (STag f).
Definition set_TEID f v :=
  mkFields (OuterHeaderCreationDescription f) v (IPv4Address f)
    (IPv6Address f) (PortNumber f) (CTag f) (STag f).
Definition set_IPv4Address f v :=
  mkFields (OuterHeaderCreationDescription f) (TEID f) v (IPv6Address f)
    (PortNumber f) (CTag f) (STag f).
Definition set_IPv6Address f v :=
  mkFields (OuterHeaderCreationDescription f) (TEID f) (IPv4Address f) v
    (PortNumber f) (CTag f) (STag f).
Definition set_PortNumber f v :=
  mkFields (OuterHeaderCreationDescription f) (TEID f) (IPv4Address f)
    (IPv6Address f) v (CTag f) (STag f).
Definition set_CTag f v :=
  mkFields (OuterHeaderCreationDescription f) (TEID f) (IPv4Address f)
    (IPv6Address f) (PortNumber f) v (STag f).
Definition set_STag f v :=
  mkFields (OuterHeaderCreationDescription f) (TEID f) (IPv4Address f)
    (IPv6Address f) (PortNumber f) (CTag f) v.

(** The two results of the decoder: the pointer (nil is [None]) and the
    error (nil is [None]). *)
Definition results : Type :=
  (option OuterHeaderCreationFields * option error)%type.

Definition ParseOuterHeaderCreation (payload : list byte)
  : option results :=
  call (
    let l := length payload in
    let! _ := (if l <? 2
               then Return (None, Some (errors.New
                 "OuterHeaderCreation payload too short: need at least 2 bytes"))
               else Next tt) in
    let f := zero in
    let! b0 := index payload 0 in
    let! b1 := index payload 1 in
    let f := set_Description f (Z.lor (shl16 (u8 b0) 8) (u8 b1)) in
    let offset := 2 in
    let! oct5 := index payload 0 in
    let oct5 := u8 oct5 in
    (* TEID *)
    let! (f, offset) :=
      (if negb (Z.land oct5 0x01 =? 0)%Z || negb (Z.land oct5 0x02 =? 0)%Z
       then
         let! _ := (if l <? offset + 4
                    then Return (None, Some (fmt.Errorf
                      "OuterHeaderCreation: insufficient bytes for TEID at offset %d"
                      offset))
                    else Next tt) in
         let! b0 := index payload offset in
         let! b1 := index payload (offset + 1) in
         let! b2 := index payload (offset + 2) in
         let! b3 := index payload (offset + 3) in
         Next (set_TEID f
                 (Z.lor (Z.lor (Z.lor (shl32 (u8 b0) 24) (shl32 (u8 b1) 16))
                               (shl32 (u8 b2) 8))
                        (u8 b3)),
               offset + 4)
       else Next (f, offset)) in
    (* IPv4 *)
    let! (f, offset) :=
      (if negb (Z.land oct5 0x01 =? 0)%Z || negb (Z.land oct5 0x04 =? 0)%Z
          || negb (Z.land oct5 0x10 =? 0)%Z
       then
         let! _ := (if l <? offset + 4
                    then Return (None, Some (fmt.Errorf
                      "OuterHeaderCreation: insufficient bytes for IPv4 at offset %d"
                      offset))
                    else Next tt) in
         let! s := slice payload offset (offset + 4) in
         Next (set_IPv4Address f (net.To4 payload s), offset + 4)
       else Next (f, offset)) in
    (* IPv6 *)
    let! (f, offset) :=
      (if negb (Z.land oct5 0x02 =? 0)%Z || negb (Z.land oct5 0x08 =? 0)%Z
          || negb (Z.land oct5 0x20 =? 0)%Z
       then
         let! _ := (if l <? offset + 16
                    then Return (None, Some (fmt.Errorf
                      "OuterHeaderCreation: insufficient bytes for IPv6 at offset %d"
                      offset))
                    else Next tt) in
         let! s := slice payload offset (offset + 16) in
         Next (set_IPv6Address f (net.To16 payload s), offset + 16)
       else Next (f, offset)) in
    (* Port Number *)
    let! (f, offset) :=
      (if negb (Z.land oct5 0x04 =? 0)%Z || negb (Z.land oct5 0x08 =? 0)%Z
       then
         let! _ := (if l <? offset + 2
                    then Return (None, Some (fmt.Errorf
                      "OuterHeaderCreation: insufficient bytes for Port at offset %d"
                      offset))
                    else Next tt) in
         let! b0 := index payload offset in
         let! b1 := index payload (offset + 1) in
         Next (set_PortNumber f (Z.lor (shl16 (u8 b0) 8) (u8 b1)),
               offset + 2)
       else Next (f, offset)) in
    (* C-TAG *)
    let! (f, offset) :=
      (if negb (Z.land oct5 0x40 =? 0)%Z
       then
         let! _ := (if l <? offset + 3
                    then Return (None, Some (fmt.Errorf
                      "OuterHeaderCreation: insufficient bytes for C-TAG at offset %d"
                      offset))
                    else Next tt) in
         let! b0 := index payload offset in
         let! b1 := index payload (offset + 1) in
         let! b2 := index payload (offset + 2) in
         Next (set_CTag f
                 (Z.lor (Z.lor (shl32 (u8 b0) 16) (shl32 (u8 b1) 8)) (u8 b2)),
               offset + 3)
       else Next (f, offset)) in
    (* S-TAG *)
    let! (f, offset) :=
      (if negb (Z.land oct5 0x80 =? 0)%Z
       then
         let! _ := (if l <? offset + 3
                    then Return (None, Some (fmt.Errorf
                      "OuterHeaderCreation: insufficient bytes for S-TAG at offset %d"
                      offset))
                    else Next tt) in
         let! b0 := index payload offset in
         let! b1 := index payload (offset + 1) in
         let! b2 := index payload (offset + 2) in
         Next (set_STag f
                 (Z.lor (Z.lor (shl32 (u8 b0) 16) (shl32 (u8 b1) 8)) (u8 b2)),
               offset + 3)
       else Next (f, offset)) in
    Return (Some f, None)).

(** [HasTEID] and [HasIPv4], the two presence methods the type has. *)
Definition HasTEID (f : OuterHeaderCreationFields) : bool :=
  let oct5 :=
    to_uint8 (Z.shiftr (Z.land (OuterHeaderCreationDescription f) 0xff00) 8) in
  negb (Z.land oct5 0x01 =? 0)%Z || negb (Z.land oct5 0x02 =? 0)%Z.

Definition HasIPv4 (f : OuterHeaderCreationFields) : bool :=
  let oct5 :=
    to_uint8 (Z.shiftr (Z.land (OuterHeaderCreationDescription f) 0xff00) 8) in
  negb (Z.land oct5 0x01 =? 0)%Z || negb (Z.land oct5 0x04 =? 0)%Z
  || negb (Z.land oct5 0x10 =? 0)%Z.

End OuterHeader.


(** ** The earlier copy of the decoder

    The same struct and the same function as the source declares them a
    second time; [errors] is here [github.com/pkg/errors]. *)

Module Part000.

Record OuterHeaderCreationFields : Type := mkFields {
  OuterHeaderCreationDescription : Z;   (* uint16 *)
  TEID : Z;                             (* uint32 *)
  IPv4Address : IP;
  IPv6Address : IP;
  PortNumber : Z;                       (* uint16 *)
  CTag : Z;                             (* uint32 *)
  STag : Z                              (* uint32 *)
}.

(** [&OuterHeaderCreationFields{}]: every field at its zero value. *)
Definition zero : OuterHeaderCreationFields :=
  mkFields 0 0 IPnil IPnil 0 0 0.

(** The assignments [f.X = v]. *)
Definition set_Description f v :=
  mkFields v (TEID f) (IPv4Address f) (IPv6Address f) (PortNumber f)
    (CTag f) (STag f).
Definition set_TEID f v :=
  mkFields (OuterHeaderCreationDescription f) v (IPv4Address f)
    (IPv6Address f) (PortNumber f) (CTag f) (STag f).
Definition set_IPv4Address f v :=
  mkFields (OuterHeaderCreationDescription f) (TEID f) v (IPv6Address f)
    (PortNumber f) (CTag f) (STag f).
Definition set_IPv6Address f v :=
  mkFields (OuterHeaderCreationDescription f) (TEID f) (IPv4Address f) v
    (PortNumber f) (CTag f) (STag f).
Definition set_PortNumber f v :=
  mkFields (OuterHeaderCreationDescription f) (TEID f) (IPv4Address f)
    (IPv6Address f) v (CTag f) (STag f).
Definition set_CTag f v :=
  mkFields (OuterHeaderCreationDescription f) (TEID f) (IPv4Address f)
    (IPv6Address f) (PortNumber f) v (STag f).
Definition set_STag f v :=
  mkFields (OuterHeaderCreationDescription f) (TEID f) (IPv4Address f)
    (IPv6Address f) (PortNumber f) (CTag f) v.

(** The two results of the decoder: the pointer (nil is [None]) and the
    error (nil is [None]). *)
Definition results : Type :=
  (option OuterHeaderCreationFields * option error)%type.

Definition ParseOuterHeaderCreation (payload : list byte)
  : option results :=
  call (
    let l := length payload in
    let! _ := (if l <? 2
               then Return (None, Some (pkg_errors.New
                 "OuterHeaderCreation payload too short: need at least 2 bytes"))
               else Next tt) in
    let f := zero in
    let! b0 := index payload 0 in
    let! b1 := index payload 1 in
    let f := set_Description f (Z.lor (shl16 (u8 b0) 8) (u8 b1)) in
    let offset := 2 in
    let! oct5 := index payload 0 in
    let oct5 := u8 oct5 in
    (* TEID *)
    let! (f, offset) :=
      (if negb (Z.land oct5 0x01 =? 0)%Z || negb (Z.land oct5 0x02 =? 0)%Z
       then
         let! _ := (if l <? offset + 4
                    then Return (None, Some (fmt.Errorf
                      "OuterHeaderCreation: insufficient bytes for TEID at offset %d"
                      offset))
                    else Next tt) in
         let! b0 := index payload offset in
         let! b1 := index payload (offset + 1) in
         let! b2 := index payload (offset + 2) in
         let! b3 := index payload (offset + 3) in
         Next (set_TEID f
                 (Z.lor (Z.lor (Z.lor (shl32 (u8 b0) 24) (shl32 (u8 b1) 16))
                               (shl32 (u8 b2) 8))
                        (u8 b3)),
               offset + 4)
       else Next (f, offset)) in
    (* IPv4 *)
    let! (f, offset) :=
      (if negb (Z.land oct5 0x01 =? 0)%Z || negb (Z.land oct5 0x04 =? 0)%Z
          || negb (Z.land oct5 0x10 =? 0)%Z
       then
         let! _ := (if l <? offset + 4
                    then Return (None, Some (fmt.Errorf
                      "OuterHeaderCreation: insufficient bytes for IPv4 at offset %d"
                      offset))
                    else Next tt) in
         let! s := slice payload offset (offset + 4) in
         Next (set_IPv4Address f (net.To4 payload s), offset + 4)
       else Next (f, offset)) in
    (* IPv6 *)
    let! (f, offset) :=
      (if negb (Z.land oct5 0x02 =? 0)%Z || negb (Z.land oct5 0x08 =? 0)%Z
          || negb (Z.land oct5 0x20 =? 0)%Z
       then
         let! _ := (if l <? offset + 16
                    then Return (None, Some (fmt.Errorf
                      "OuterHeaderCreation: insufficient bytes for IPv6 at offset %d"
                      offset))
                    else Next tt) in
         let! s := slice payload offset (offset + 16) in
         Next (set_IPv6Address f (net.To16 payload s), offset + 16)
       else Next (f, offset)) in
    (* Port Number *)
    let! (f, offset) :=
      (if negb (Z.land oct5 0x04 =? 0)%Z || negb (Z.land oct5 0x08 =? 0)%Z
       then
         let! _ := (if l <? offset + 2
                    then Return (None, Some (fmt.Errorf
                      "OuterHeaderCreation: insufficient bytes for Port at offset %d"
                      offset))
                    else Next tt) in
         let! b0 := index payload offset in
         let! b1 := index payload (offset + 1) in
         Next (set_PortNumber f (Z.lor (shl16 (u8 b0) 8) (u8 b1)),
               offset + 2)
       else Next (f, offset)) in
    (* C-TAG: 3 octets *)
    let! (f, offset) :=
      (if negb (Z.land oct5 0x40 =? 0)%Z
       then
         let! _ := (if l <? offset + 3
                    then Return (None, Some (fmt.Errorf
                      "OuterHeaderCreation: insufficient bytes for C-TAG at offset %d"
                      offset))
                    else Next tt) in
         let! b0 := index payload offset in
         let! b1 := index payload (offset + 1) in
         let! b2 := index payload (offset + 2) in
         Next (set_CTag f
                 (Z.lor (Z.lor (shl32 (u8 b0) 16) (shl32 (u8 b1) 8)) (u8 b2)),
               offset + 3)
       else Next (f, offset)) in
    (* S-TAG: 3 octets *)
    let! (f, offset) :=
      (if negb (Z.land oct5 0x80 =? 0)%Z
       then
         let! _ := (if l <? offset + 3
                    then Return (None, Some (fmt.Errorf
                      "OuterHeaderCreation: insufficient bytes for S-TAG at offset %d"
                      offset))
                    else Next tt) in
         let! b0 := index payload offset in
         let! b1 := index payload (offset + 1) in
         let! b2 := index payload (offset + 2) in
         Next (set_STag f
                 (Z.lor (Z.lor (shl32 (u8 b0) 16) (shl32 (u8 b1) 8)) (u8 b2)),
               offset + 3)
       else Next (f, offset)) in
    Return (Some f, None)).

(** [HasTEID] and [HasIPv4] of the earlier copy. *)
Definition HasTEID (f : OuterHeaderCreationFields) : bool :=
  let oct5 :=
    to_uint8 (Z.shiftr (Z.land (OuterHeaderCreationDescription f) 0xff00) 8) in
  negb (Z.land oct5 0x01 =? 0)%Z || negb (Z.land oct5 0x02 =? 0)%Z.

Definition HasIPv4 (f : OuterHeaderCreationFields) : bool :=
  let oct5 :=
    to_uint8 (Z.shiftr (Z.land (OuterHeaderCreationDescription f) 0xff00) 8) in
  negb (Z.land oct5 0x01 =? 0)%Z || negb (Z.land oct5 0x04 =? 0)%Z
  || negb (Z.land oct5 0x10 =? 0)%Z.

End Part000.

(** ** The layout of the IE, as the specification describes it *)

Inductive subfield : Type :=
| F_TEID | F_IPv4 | F_IPv6 | F_Port | F_CTAG | F_STAG.

(** The fixed order of the sub-fields in the byte stream. *)
Definition canonical_order : list subfield :=
  [F_TEID; F_IPv4; F_IPv6; F_Port; F_CTAG; F_STAG].

(** Bit [k] of the flag octet, bit 1 being the least significant. *)
Definition bit (k : Z) (o : Z) : bool := Z.testbit o (k - 1).

(** The derived presence predicates. *)
Definition present (s : subfield) (o : Z) : bool :=
  match s with
  | F_TEID => bit 1 o || bit 2 o
  | F_IPv4 => bit 1 o || bit 3 o || bit 5 o
  | F_IPv6 => bit 2 o || bit 4 o || bit 6 o
  | F_Port => bit 3 o || bit 4 o
  | F_CTAG => bit 7 o
  | F_STAG => bit 8 o
  end.

(** How many of the set bits of the flag octet trigger a sub-field. *)
Definition triggers (s : subfield) (o : Z) : nat :=
  let n (k : Z) := if bit k o then 1 else 0 in
  match s with
  | F_TEID => n 1%Z + n 2%Z
  | F_IPv4 => n 1%Z + n 3%Z + n 5%Z
  | F_IPv6 => n 2%Z + n 4%Z + n 6%Z
  | F_Port => n 3%Z + n 4%Z
  | F_CTAG => n 7%Z
  | F_STAG => n 8%Z
  end.

Definition width (s : subfield) : nat :=
  match s with
  | F_TEID => 4
  | F_IPv4 => 4
  | F_IPv6 => 16
  | F_Port => 2
  | F_CTAG => 3
  | F_STAG => 3
  end.

Definition name (s : subfield) : string :=
  match s with
  | F_TEID => "TEID"
  | F_IPv4 => "IPv4"
  | F_IPv6 => "IPv6"
  | F_Port => "Port"
  | F_CTAG => "C-TAG"
  | F_STAG => "S-TAG"
  end.

(** The position of a sub-field in the canonical order. *)
Definition rank (s : subfield) : nat :=
  match s with
  | F_TEID => 0
  | F_IPv4 => 1
  | F_IPv6 => 2
  | F_Port => 3
  | F_CTAG => 4
  | F_STAG => 5
  end.

(** The bytes that the present sub-fields of [flds] take, each sub-field
    counted once. *)
Fixpoint consumed (o : Z) (flds : list subfield) : nat :=
  match flds with
  | [] => 0
  | s :: rest => (if present s o then width s else 0) + consumed o rest
  end.

(** Where the cursor stands when the decoder reaches sub-field [s]. *)
Definition cursor (o : Z) (s : subfield) : nat :=
  2 + consumed o (take (rank s) canonical_order).

(** The length a payload with flag octet [o] must have to decode. *)
Definition need (o : Z) : nat := 2 + consumed o canonical_order.

(** Sub-field [s] is selected by the flags and does not fit in [l] bytes. *)
Definition short (o : Z) (l : nat) (s : subfield) : bool :=
  present s o && (l <? cursor o s + width s).

(** The first sub-field, in canonical order, that is selected and does
    not fit, with the offset of the shortfall. *)
Fixpoint first_short_from (o : Z) (l cur : nat) (flds : list subfield)
  : option (subfield * nat) :=
  match flds with
  | [] => None
  | s :: rest =>
      if present s o
      then if l <? cur + width s
           then Some (s, cur)
           else first_short_from o l (cur + width s) rest
      else first_short_from o l cur rest
  end.

Definition first_short (o : Z) (l : nat) : option (subfield * nat) :=
  first_short_from o l 2 canonical_order.

(** A big-endian unsigned integer. *)
Definition big_endian (bs : list byte) : Z :=
  fold_left (fun acc b => (acc * 256 + u8 b)%Z) bs 0%Z.

(** The bytes of the payload from [off], [w] of them. *)
Definition window (payload : list byte) (off w : nat) : list byte :=
  take w (drop off payload).

(** The two kinds of error of the decoder. *)
Definition too_short : string :=
  "OuterHeaderCreation payload too short: need at least 2 bytes".

Definition truncated_field (s : subfield) (off : nat) : string :=
  "OuterHeaderCreation: insufficient bytes for " ++ name s
  ++ " at offset " ++ itoa off.

(** The flag octet of a payload (its first byte) and the payload's byte
    at [i] as an integer. *)
Definition at8 (payload : list byte) (i : nat) : Z := u8 (nth i payload x00).
Definition flag_octet (payload : list byte) : Z := at8 payload 0.

(** The integers the decoder assembles from the bytes at [off]. *)
Definition read16 (payload : list byte) (off : nat) : Z :=
  Z.lor (shl16 (at8 payload off) 8) (at8 payload (off + 1)).

Definition read24 (payload : list byte) (off : nat) : Z :=
  Z.lor (Z.lor (shl32 (at8 payload off) 16) (shl32 (at8 payload (off + 1)) 8))
        (at8 payload (off + 2)).

Definition read32 (payload : list byte) (off : nat) : Z :=
  Z.lor (Z.lor (Z.lor (shl32 (at8 payload off) 24)
                      (shl32 (at8 payload (off + 1)) 16))
               (shl32 (at8 payload (off + 2)) 8))
        (at8 payload (off + 3)).

(** The result of a decode that meets no error, field by field. *)
Definition decoded (payload : list byte)
  : OuterHeader.OuterHeaderCreationFields :=
  let o := flag_octet payload in
  OuterHeader.mkFields
    (read16 payload 0)
    (if present F_TEID o then read32 payload (cursor o F_TEID) else 0%Z)
    (if present F_IPv4 o then IPshared (cursor o F_IPv4) 4 else IPnil)
    (if present F_IPv6 o then IPshared (cursor o F_IPv6) 16 else IPnil)
    (if present F_Port o then read16 payload (cursor o F_Port) else 0%Z)
    (if present F_CTAG o then read24 payload (cursor o F_CTAG) else 0%Z)
    (if present F_STAG o then read24 payload (cursor o F_STAG) else 0%Z).

(** What the decoder returns, in closed form. *)
Definition outcome (payload : list byte) : OuterHeader.results :=
  if length payload <? 2
  then (None, Some (errorString too_short))
  else match first_short (flag_octet payload) (length payload) with
       | Some (s, off) => (None, Some (errorString (truncated_field s off)))
       | None => (Some (decoded payload), None)
       end.

(** The earlier copy returns the same, in its own types. *)
Definition decoded000 (payload : list byte)
  : Part000.OuterHeaderCreationFields :=
  let o := flag_octet payload in
  Part000.mkFields
    (read16 payload 0)
    (if present F_TEID o then read32 payload (cursor o F_TEID) else 0%Z)
    (if present F_IPv4 o then IPshared (cursor o F_IPv4) 4 else IPnil)
    (if present F_IPv6 o then IPshared (cursor o F_IPv6) 16 else IPnil)
    (if present F_Port o then read16 payload (cursor o F_Port) else 0%Z)
    (if present F_CTAG o then read24 payload (cursor o F_CTAG) else 0%Z)
    (if present F_STAG o then read24 payload (cursor o F_STAG) else 0%Z).

Definition outcome000 (payload : list byte) : Part000.results :=
  if length payload <? 2
  then (None, Some (fundamental too_short))
  else match first_short (flag_octet payload) (length payload) with
       | Some (s, off) => (None, Some (errorString (truncated_field s off)))
       | None => (Some (decoded000 payload), None)
       end.

(** ** Vocabulary of the properties *)

(** The decoder succeeds on [payload] with result [f]. *)
Definition succeeds (payload : list byte)
  (f : OuterHeader.OuterHeaderCreationFields) : Prop :=
  OuterHeader.ParseOuterHeaderCreation payload = Some (Some f, None).

(** The decoder fails on [payload] with a truncated-field error. *)
Definition fails_truncated_field (payload : list byte) : Prop :=
  exists s off,
    OuterHeader.ParseOuterHeaderCreation payload
    = Some (None, Some (errorString (truncated_field s off))).

(** Sub-field [s] of [f] holds the [width s] bytes of the payload at
    [off]: as a big-endian integer, or as an address of these bytes. *)
Definition field_at (payload : list byte)
  (f : OuterHeader.OuterHeaderCreationFields) (s : subfield) (off : nat)
  : Prop :=
  match s with
  | F_TEID => OuterHeader.TEID f = big_endian (window payload off (width s))
  | F_IPv4 =>
      IP_bytes payload (OuterHeader.IPv4Address f)
      = window payload off (width s)
  | F_IPv6 =>
      IP_bytes payload (OuterHeader.IPv6Address f)
      = window payload off (width s)
  | F_Port =>
      OuterHeader.PortNumber f = big_endian (window payload off (width s))
  | F_CTAG => OuterHeader.CTag f = big_endian (window payload off (width s))
  | F_STAG => OuterHeader.STag f = big_endian (window payload off (width s))
  end.

(** Sub-field [s] of [f] was left at its zero value. *)
Definition field_unset (f : OuterHeader.OuterHeaderCreationFields)
  (s : subfield) : Prop :=
  match s with
  | F_TEID => OuterHeader.TEID f = 0%Z
  | F_IPv4 => OuterHeader.IPv4Address f = IPnil
  | F_IPv6 => OuterHeader.IPv6Address f = IPnil
  | F_Port => OuterHeader.PortNumber f = 0%Z
  | F_CTAG => OuterHeader.CTag f = 0%Z
  | F_STAG => OuterHeader.STag f = 0%Z
  end.

(** The bytes that the sub-fields of [flds] take when a sub-field is
    counted once however many of its triggering bits are set, and when it
    is counted once for each set triggering bit. *)
Fixpoint consumed_once (o : Z) (flds : list subfield) : nat :=
  match flds with
  | [] => 0
  | s :: rest =>
      (if 1 <=? triggers s o then width s else 0) + consumed_once o rest
  end.

Fixpoint consumed_per_trigger (o : Z) (flds : list subfield) : nat :=
  match flds with
  | [] => 0
  | s :: rest => triggers s o * width s + consumed_per_trigger o rest
  end.

(** The presence methods that [*OuterHeaderCreationFields] declares, by
    the sub-field they report. *)
Definition presence_method (s : subfield)
  : option (OuterHeader.OuterHeaderCreationFields -> bool) :=
  match s with
  | F_TEID => Some OuterHeader.HasTEID
  | F_IPv4 => Some OuterHeader.HasIPv4
  | F_IPv6 | F_Port | F_CTAG | F_STAG => None
  end.

(** The flag octet of a stored description: its high byte. *)
Definition high_byte (description : Z) : Z :=
  (description / 2 ^ 8 mod 2 ^ 8)%Z.

(** The results of the two copies of the decoder agree. *)
Definition same_fields (f : OuterHeader.OuterHeaderCreationFields)
  (g : Part000.OuterHeaderCreationFields) : Prop :=
  OuterHeader.OuterHeaderCreationDescription f
  = Part000.OuterHeaderCreationDescription g /\
  OuterHeader.TEID f = Part000.TEID g /\
  OuterHeader.IPv4Address f = Part000.IPv4Address g /\
  OuterHeader.IPv6Address f = Part000.IPv6Address g /\
  OuterHeader.PortNumber f = Part000.PortNumber g /\
  OuterHeader.CTag f = Part000.CTag g /\
  OuterHeader.STag f = Part000.STag g.

Definition agree (r : option OuterHeader.results)
  (r' : option Part000.results) : Prop :=
  match r, r' with
  | Some (Some f, None), Some (Some g, None) => same_fields f g
  | Some (None, Some e), Some (None, Some e') => Error e = Error e'
  | _, _ => False
  end.

(** Payloads of the test scenarios. *)
Definition scenario_1 : list byte :=
  [x01; x00; x00; x00; x00; x01; x0a; x00; x00; x01].

Definition scenario_5 : list byte :=
  [xc1; x00; x00; x00; x00; x0f; x0a; x01; x02; x03;
   xaa; xbb; xcc; xdd; xee; xff].

Definition scenario_7 : list byte := [x01; x00; x00; x00; x00].

(** Flag octet 0x05: bits 1 and 3, both of which trigger IPv4. *)
Definition payload_05 : list byte :=
  [x05; x00; x00; x00; x00; x07; xc0; xa8; x01; x01; x1f; x90].

(** Flag octet 0x03: bits 1 and 2, both of which trigger TEID. *)
Definition payload_03 : list byte :=
  [x03; x00; x00; x00; x00; x09; x0a; x00; x00; x01;
   x20; x01; x0d; xb8; x00; x00; x00; x00;
   x00; x00; x00; x00; x00; x00; x00; x01].

(** The payload of the IPv6 memory-independence test. *)
Definition payload_v6 : list byte :=
  [x02; x00; x00; x00; x00; x01;
   x00; x00; x00; x00; x00; x00; x00; x00;
   x00; x00; x00; x00; x00; x00; x00; x01].

(** The caller's buffer after the assignments [payload[6] = 0xff] and
    [payload[7] = 0xff] of the IPv4 test, and after [payload[6] = 0xff]
    of the IPv6 test. *)
Definition scenario_1_mutated : list byte :=
  <[7 := xff]> (<[6 := xff]> scenario_1).

Definition payload_v6_mutated : list byte := <[6 := xff]> payload_v6.

(** No flag bit set, one byte after the description. *)
Definition payload_trailing : list byte := [x00; x00; xff].

(** The earlier copy succeeds on [payload] with result [g]. *)
Definition succeeds000 (payload : list byte)
  (g : Part000.OuterHeaderCreationFields) : Prop :=
  Part000.ParseOuterHeaderCreation payload = Some (Some g, None).

(** The longest layout: the description and all six sub-fields. *)
Definition max_need : nat := 2 + 4 + 4 + 16 + 2 + 3 + 3.

(** A payload of [n] bytes, all 0xff: every flag bit set. *)
Definition payload_ff (n : nat) : list byte := replicate n xff.

(** Two payloads of one length and one flag octet, different elsewhere. *)
Definition short_a : list byte := [x41; x00; x00; x00; x00; x01; x0a; x00].
Definition short_b : list byte := [x41; xff; x12; x34; x56; x78; x9a; xbc].

(** ** Bits and bytes *)

Lemma land_pow2_testbit (o k : Z) :
  (0 <= k)%Z -> negb (Z.land o (2 ^ k) =? 0)%Z = Z.testbit o k.
Proof.
  intros Hk.
  destruct (Z.testbit o k) eqn:E.
  - apply negb_true_iff, Z.eqb_neq. intros H.
    assert (Z.testbit (Z.land o (2 ^ k)) k = false) as F
      by (rewrite H; apply Z.bits_0).
    rewrite Z.land_spec, E, Z.pow2_bits_true in F by lia. discriminate.
  - apply negb_false_iff, Z.eqb_eq, Z.bits_inj'. intros n Hn.
    rewrite Z.land_spec, Z.bits_0.
    destruct (Z.eq_dec n k) as [->|Hne].
    + rewrite E. reflexivity.
    + rewrite Z.pow2_bits_false by lia. apply andb_false_r.
Qed.

Lemma index_lt {R : Type} (p : list byte) (i : nat) :
  i < length p -> @index R p i = Next (nth i p x00).
Proof.
  intros H. unfold index.
  destruct (p !! i) as [b|] eqn:E.
  - f_equal. symmetry. apply nth_lookup_Some with (d := x00) in E. exact E.
  - apply lookup_ge_None in E. lia.
Qed.

Lemma slice_ok {R : Type} (p : list byte) (off w : nat) :
  off + w <= length p -> @slice R p off (off + w) = Next (IPshared off w).
Proof.
  intros H. unfold slice.
  replace (off + w - off) with w by lia.
  destruct (off <=? off + w) eqn:E1; [|apply Nat.leb_gt in E1; lia].
  destruct (off + w <=? length p) eqn:E2; [|apply Nat.leb_gt in E2; lia].
  reflexivity.
Qed.

Lemma window_length (p : list byte) (off w : nat) :
  off + w <= length p -> length (window p off w) = w.
Proof.
  intros H. unfold window. rewrite length_take, length_drop. lia.
Qed.

Lemma To4_shared (p : list byte) (off : nat) :
  off + 4 <= length p -> net.To4 p (IPshared off 4) = IPshared off 4.
Proof.
  intros H. unfold net.To4. cbn [IP_bytes].
  fold (window p off 4). rewrite window_length by exact H. reflexivity.
Qed.

Lemma To16_shared (p : list byte) (off : nat) :
  off + 16 <= length p -> net.To16 p (IPshared off 16) = IPshared off 16.
Proof.
  intros H. unfold net.To16. cbn [IP_bytes].
  fold (window p off 16). rewrite window_length by exact H. reflexivity.
Qed.

(** The masks the decoder tests, as bits of the flag octet. *)
Lemma mask_01 (o : Z) : negb (Z.land o 0x01 =? 0)%Z = bit 1 o.
Proof. exact (land_pow2_testbit o 0 ltac:(lia)). Qed.
Lemma mask_02 (o : Z) : negb (Z.land o 0x02 =? 0)%Z = bit 2 o.
Proof. exact (land_pow2_testbit o 1 ltac:(lia)). Qed.
Lemma mask_04 (o : Z) : negb (Z.land o 0x04 =? 0)%Z = bit 3 o.
Proof. exact (land_pow2_testbit o 2 ltac:(lia)). Qed.
Lemma mask_08 (o : Z) : negb (Z.land o 0x08 =? 0)%Z = bit 4 o.
Proof. exact (land_pow2_testbit o 3 ltac:(lia)). Qed.
Lemma mask_10 (o : Z) : negb (Z.land o 0x10 =? 0)%Z = bit 5 o.
Proof. exact (land_pow2_testbit o 4 ltac:(lia)). Qed.
Lemma mask_20 (o : Z) : negb (Z.land o 0x20 =? 0)%Z = bit 6 o.
Proof. exact (land_pow2_testbit o 5 ltac:(lia)). Qed.
Lemma mask_40 (o : Z) : negb (Z.land o 0x40 =? 0)%Z = bit 7 o.
Proof. exact (land_pow2_testbit o 6 ltac:(lia)). Qed.
Lemma mask_80 (o : Z) : negb (Z.land o 0x80 =? 0)%Z = bit 8 o.
Proof. exact (land_pow2_testbit o 7 ltac:(lia)). Qed.

Ltac masks :=
  rewrite ?mask_01, ?mask_02, ?mask_04, ?mask_08,
          ?mask_10, ?mask_20, ?mask_40, ?mask_80.

Ltac fold_present o :=
  change (bit 1 o || bit 2 o) with (present F_TEID o);
  change (bit 1 o || bit 3 o || bit 5 o) with (present F_IPv4 o);
  change (bit 2 o || bit 4 o || bit 6 o) with (present F_IPv6 o);
  change (bit 3 o || bit 4 o) with (present F_Port o);
  change (bit 7 o) with (present F_CTAG o);
  change (bit 8 o) with (present F_STAG o).

Ltac reads :=
  cbn [bind];
  repeat (first
    [ rewrite index_lt by lia
    | rewrite slice_ok by lia
    | rewrite To4_shared by lia
    | rewrite To16_shared by lia ];
    cbn [bind]).

(** One sub-field of the decoder: is it selected, does it fit, read it. *)
Ltac field_step o :=
  match goal with
  | |- context [if present ?s o then _ else _] =>
      destruct (present s o); cbn [bind];
      [ match goal with
        | |- context [?a <? ?b] =>
            destruct (Nat.ltb_spec a b); cbn [bind]; [reflexivity | reads]
        end
      | ]
  end.

Lemma Parse_outcome (p : list byte) :
  OuterHeader.ParseOuterHeaderCreation p = Some (outcome p).
Proof.
  unfold OuterHeader.ParseOuterHeaderCreation, outcome.
  destruct (Nat.ltb_spec (length p) 2) as [Hl|Hl]; [reflexivity|].
  cbn [bind]. reads.
  fold (at8 p 0). fold (flag_octet p).
  unfold first_short, decoded, cursor.
  set (o := flag_octet p).
  masks. fold_present o.
  cbn [first_short_from consumed take rank canonical_order width].
  do 6 field_step o.
  all: reflexivity.
Qed.

(** ** Big-endian values *)

Lemma u8_range (b : byte) : (0 <= u8 b < 256)%Z.
Proof. unfold u8. pose proof (Byte.to_N_bounded b). lia. Qed.

Lemma at8_range (p : list byte) (i : nat) : (0 <= at8 p i < 256)%Z.
Proof. apply u8_range. Qed.

Lemma lor_add (a b n : Z) :
  (0 <= n)%Z -> (0 <= b < 2 ^ n)%Z ->
  Z.lor (a * 2 ^ n) b = (a * 2 ^ n + b)%Z.
Proof.
  intros Hn Hb.
  assert (Z.land (a * 2 ^ n) b = 0%Z) as Hdisj.
  { apply Z.bits_inj'. intros m Hm.
    rewrite Z.land_spec, Z.bits_0, <- Z.shiftl_mul_pow2 by exact Hn.
    destruct (Z.lt_ge_cases m n) as [Hlt|Hge].
    - rewrite Z.shiftl_spec_low by exact Hlt. reflexivity.
    - rewrite <- (Z.mod_small b (2 ^ n)) by exact Hb.
      rewrite Z.mod_pow2_bits_high by lia. apply andb_false_r. }
  rewrite <- Z.lxor_lor by exact Hdisj.
  symmetry. apply Z.add_nocarry_lxor. exact Hdisj.
Qed.

Lemma shl16_byte (x : Z) : (0 <= x < 256)%Z -> shl16 x 8 = (x * 2 ^ 8)%Z.
Proof.
  intros H. unfold shl16. rewrite Z.shiftl_mul_pow2 by lia.
  apply Z.mod_small. lia.
Qed.

Lemma shl32_byte (x n : Z) :
  (0 <= x < 256)%Z -> (0 <= n <= 24)%Z -> shl32 x n = (x * 2 ^ n)%Z.
Proof.
  intros H Hn. unfold shl32. rewrite Z.shiftl_mul_pow2 by lia.
  apply Z.mod_small.
  assert (0 < 2 ^ n <= 2 ^ 24)%Z
    by (split; [apply Z.pow_pos_nonneg; lia | apply Z.pow_le_mono_r; lia]).
  nia.
Qed.

Lemma read16_value (p : list byte) (off : nat) :
  read16 p off = (at8 p off * 256 + at8 p (off + 1))%Z.
Proof.
  unfold read16.
  pose proof (at8_range p off). pose proof (at8_range p (off + 1)).
  rewrite shl16_byte by assumption.
  rewrite lor_add by lia. lia.
Qed.

Lemma read24_value (p : list byte) (off : nat) :
  read24 p off
  = ((at8 p off * 256 + at8 p (off + 1)) * 256 + at8 p (off + 2))%Z.
Proof.
  unfold read24.
  pose proof (at8_range p off). pose proof (at8_range p (off + 1)).
  pose proof (at8_range p (off + 2)).
  rewrite !shl32_byte by (assumption || lia).
  rewrite <- Z.lor_assoc.
  rewrite (lor_add (at8 p (off + 1)) _ 8) by lia.
  rewrite lor_add by lia. lia.
Qed.

Lemma read32_value (p : list byte) (off : nat) :
  read32 p off
  = (((at8 p off * 256 + at8 p (off + 1)) * 256 + at8 p (off + 2)) * 256
     + at8 p (off + 3))%Z.
Proof.
  unfold read32.
  pose proof (at8_range p off). pose proof (at8_range p (off + 1)).
  pose proof (at8_range p (off + 2)). pose proof (at8_range p (off + 3)).
  rewrite !shl32_byte by (assumption || lia).
  rewrite <- !Z.lor_assoc.
  rewrite (lor_add (at8 p (off + 2)) _ 8) by lia.
  rewrite (lor_add (at8 p (off + 1)) _ 16) by lia.
  rewrite lor_add by lia. lia.
Qed.

Lemma window_cons (p : list byte) (off w : nat) :
  off < length p ->
  window p off (S w) = nth off p x00 :: window p (S off) w.
Proof.
  intros H. unfold window.
  destruct (lookup_lt_is_Some_2 p off H) as [b Hb].
  rewrite (drop_S p b off Hb). cbn [take].
  f_equal. symmetry. exact (nth_lookup_Some p off x00 b Hb).
Qed.

Lemma window_2 (p : list byte) (off : nat) :
  off + 2 <= length p ->
  window p off 2 = [nth off p x00; nth (off + 1) p x00].
Proof.
  intros H. rewrite !window_cons by lia.
  replace (S off) with (off + 1) by lia. reflexivity.
Qed.

Lemma window_3 (p : list byte) (off : nat) :
  off + 3 <= length p ->
  window p off 3 = [nth off p x00; nth (off + 1) p x00; nth (off + 2) p x00].
Proof.
  intros H. rewrite !window_cons by lia.
  replace (S (S off)) with (off + 2) by lia.
  replace (S off) with (off + 1) by lia. reflexivity.
Qed.

Lemma window_4 (p : list byte) (off : nat) :
  off + 4 <= length p ->
  window p off 4
  = [nth off p x00; nth (off + 1) p x00; nth (off + 2) p x00;
     nth (off + 3) p x00].
Proof.
  intros H. rewrite !window_cons by lia.
  replace (S (S (S off))) with (off + 3) by lia.
  replace (S (S off)) with (off + 2) by lia.
  replace (S off) with (off + 1) by lia. reflexivity.
Qed.

Lemma read16_big_endian (p : list byte) (off : nat) :
  off + 2 <= length p -> read16 p off = big_endian (window p off 2).
Proof.
  intros H. rewrite read16_value, window_2 by exact H.
  unfold big_endian, at8. cbn [fold_left]. lia.
Qed.

Lemma read24_big_endian (p : list byte) (off : nat) :
  off + 3 <= length p -> read24 p off = big_endian (window p off 3).
Proof.
  intros H. rewrite read24_value, window_3 by exact H.
  unfold big_endian, at8. cbn [fold_left]. lia.
Qed.

Lemma read32_big_endian (p : list byte) (off : nat) :
  off + 4 <= length p -> read32 p off = big_endian (window p off 4).
Proof.
  intros H. rewrite read32_value, window_4 by exact H.
  unfold big_endian, at8. cbn [fold_left]. lia.
Qed.

(** ** The layout functions *)

Ltac presence o :=
  destruct (present F_TEID o) eqn:?P_TEID;
  destruct (present F_IPv4 o) eqn:?P_IPv4;
  destruct (present F_IPv6 o) eqn:?P_IPv6;
  destruct (present F_Port o) eqn:?P_Port;
  destruct (present F_CTAG o) eqn:?P_CTAG;
  destruct (present F_STAG o) eqn:?P_STAG;
  cbv beta iota in *.

Ltac layout :=
  unfold short, cursor, need, first_short in *;
  cbn [first_short_from consumed take rank canonical_order width
       andb fst snd] in *.

Ltac compare_lengths :=
  repeat match goal with
         | |- context [?a <? ?b] => destruct (Nat.ltb_spec a b)
         | H : context [?a <? ?b] |- _ => destruct (Nat.ltb_spec a b)
         end.

Lemma first_short_None (o : Z) (l : nat) :
  2 <= l -> (first_short o l = None <-> need o <= l).
Proof.
  intros Hl. layout.
  presence o; compare_lengths; split; intros;
    first [discriminate | lia | reflexivity].
Qed.

Ltac known_presence :=
  repeat match goal with
         | H : present _ _ = _ |- _ => rewrite H
         end;
  cbv beta iota; cbn [andb].

Ltac compare_lengths_in H :=
  repeat match type of H with
         | context [?a <? ?b] => destruct (Nat.ltb_spec a b)
         end.

Lemma first_short_Some (o : Z) (l : nat) (s : subfield) (off : nat) :
  first_short o l = Some (s, off) ->
  short o l s = true /\ off = cursor o s /\
  forall s', rank s' < rank s -> short o l s' = false.
Proof.
  intros Hfs. unfold first_short in Hfs.
  cbn [first_short_from canonical_order width] in Hfs.
  presence o; compare_lengths_in Hfs; try discriminate Hfs;
    injection Hfs as <- <-; (split; [|split]).
  all: try (layout; known_presence; first [apply Nat.ltb_lt; lia | lia]).
  all: intros s' Hr; destruct s'; layout; try lia; known_presence;
    try reflexivity; apply Nat.ltb_ge; lia.
Qed.

Lemma cursor_le_need (o : Z) (s : subfield) :
  present s o = true -> cursor o s + width s <= need o.
Proof.
  intros Hs. destruct s; layout; presence o; try discriminate Hs; lia.
Qed.

Lemma short_first_short (o : Z) (l : nat) (s : subfield) :
  2 <= l -> short o l s = true ->
  exists s0 off0, first_short o l = Some (s0, off0).
Proof.
  intros Hl Hs.
  destruct (first_short o l) as [[s0 off0]|] eqn:E; [eauto|].
  apply first_short_None in E; [|exact Hl].
  unfold short in Hs. apply andb_true_iff in Hs as [Hp Hlt].
  apply Nat.ltb_lt in Hlt.
  pose proof (cursor_le_need o s Hp). lia.
Qed.

(** ** What a call returns *)

Lemma Parse_short_header (p : list byte) :
  length p < 2 ->
  OuterHeader.ParseOuterHeaderCreation p
  = Some (None, Some (errorString too_short)).
Proof.
  intros H. rewrite Parse_outcome. unfold outcome.
  destruct (Nat.ltb_spec (length p) 2); [reflexivity | lia].
Qed.

Lemma Parse_short_field (p : list byte) (s : subfield) (off : nat) :
  2 <= length p ->
  first_short (flag_octet p) (length p) = Some (s, off) ->
  OuterHeader.ParseOuterHeaderCreation p
  = Some (None, Some (errorString (truncated_field s off))).
Proof.
  intros H E. rewrite Parse_outcome. unfold outcome.
  destruct (Nat.ltb_spec (length p) 2); [lia|].
  rewrite E. reflexivity.
Qed.

Lemma Parse_long_enough (p : list byte) :
  2 <= length p -> need (flag_octet p) <= length p ->
  OuterHeader.ParseOuterHeaderCreation p = Some (Some (decoded p), None).
Proof.
  intros H Hn. rewrite Parse_outcome. unfold outcome.
  destruct (Nat.ltb_spec (length p) 2); [lia|].
  apply first_short_None in Hn; [|exact H]. rewrite Hn. reflexivity.
Qed.

Lemma Parse_success_inv (p : list byte) f :
  OuterHeader.ParseOuterHeaderCreation p = Some (Some f, None) ->
  2 <= length p /\ need (flag_octet p) <= length p /\ f = decoded p.
Proof.
  rewrite Parse_outcome. unfold outcome.
  destruct (Nat.ltb_spec (length p) 2) as [Hl|Hl]; [discriminate|].
  destruct (first_short (flag_octet p) (length p)) as [[s off]|] eqn:E;
    [discriminate|].
  intros H. injection H as <-.
  apply first_short_None in E; [|exact Hl]. auto.
Qed.

Lemma Parse000_outcome (p : list byte) :
  Part000.ParseOuterHeaderCreation p = Some (outcome000 p).
Proof.
  unfold Part000.ParseOuterHeaderCreation, outcome000.
  destruct (Nat.ltb_spec (length p) 2) as [Hl|Hl]; [reflexivity|].
  cbn [bind]. reads.
  fold (at8 p 0). fold (flag_octet p).
  unfold first_short, decoded000, cursor.
  set (o := flag_octet p).
  masks. fold_present o.
  cbn [first_short_from consumed take rank canonical_order width].
  do 6 field_step o.
  all: reflexivity.
Qed.

(** ** The fields of a successful decode *)

Lemma decoded_field_at (p : list byte) (s : subfield) :
  need (flag_octet p) <= length p ->
  present s (flag_octet p) = true ->
  field_at p (decoded p) s (cursor (flag_octet p) s).
Proof.
  intros Hn Hs. pose proof (cursor_le_need _ s Hs) as Hc.
  destruct s; unfold field_at, decoded;
    cbn [OuterHeader.TEID OuterHeader.IPv4Address OuterHeader.IPv6Address
         OuterHeader.PortNumber OuterHeader.CTag OuterHeader.STag];
    rewrite Hs; cbn [width] in *.
  - apply read32_big_endian. lia.
  - reflexivity.
  - reflexivity.
  - apply read16_big_endian. lia.
  - apply read24_big_endian. lia.
  - apply read24_big_endian. lia.
Qed.

Lemma decoded_field_unset (p : list byte) (s : subfield) :
  present s (flag_octet p) = false -> field_unset (decoded p) s.
Proof.
  intros Hs.
  destruct s; unfold field_unset, decoded;
    cbn [OuterHeader.TEID OuterHeader.IPv4Address OuterHeader.IPv6Address
         OuterHeader.PortNumber OuterHeader.CTag OuterHeader.STag];
    rewrite Hs; reflexivity.
Qed.

Lemma decoded_description (p : list byte) :
  2 <= length p ->
  OuterHeader.OuterHeaderCreationDescription (decoded p)
  = big_endian (window p 0 2).
Proof. intros H. apply read16_big_endian. lia. Qed.

(** ** Scenario 5 and the widths of the sub-fields *)

(** C1. The payload [C1 00 | 0000000F | 0A010203 | AABBCC | DDEEFF]
    decodes to description 0xC100, TEID 15, IPv4 address 10.1.2.3, C-TAG
    0xAABBCC and S-TAG 0xDDEEFF, the 16 bytes being used up by the
    description and sub-fields of 4, 4, 3 and 3 bytes. In every
    successful decode the description is the big-endian value of the
    first two bytes, and each sub-field that the flags select holds the
    bytes found at its cursor, read big-endian, the cursor advancing in
    the canonical order by the widths 4, 4, 16, 2, 3 and 3; the other
    sub-fields keep their zero value. *)
Theorem C1_scenario_5_and_widths :
  (succeeds scenario_5
     (OuterHeader.mkFields 0xC100 15 (IPshared 6 4) IPnil 0 0xAABBCC 0xDDEEFF)
   /\ IP_bytes scenario_5 (IPshared 6 4) = [x0a; x01; x02; x03]
   /\ need (flag_octet scenario_5) = 2 + 4 + 4 + 3 + 3
   /\ length scenario_5 = 2 + 4 + 4 + 3 + 3)
  /\ map width canonical_order = [4; 4; 16; 2; 3; 3]
  /\ forall (p : list byte) f,
       succeeds p f ->
       OuterHeader.OuterHeaderCreationDescription f
       = big_endian (window p 0 2) /\
       forall s,
         if present s (flag_octet p)
         then field_at p f s (cursor (flag_octet p) s)
         else field_unset f s.
Proof.
  split; [|split].
  - repeat split; vm_compute; reflexivity.
  - reflexivity.
  - intros p f Hf. apply Parse_success_inv in Hf as (Hl & Hn & ->).
    split; [apply decoded_description; exact Hl|].
    intros s. destruct (present s (flag_octet p)) eqn:Hs.
    + apply decoded_field_at; assumption.
    + apply decoded_field_unset; assumption.
Qed.

Lemma C1_scenario_5_witness :
  succeeds scenario_5
    (OuterHeader.mkFields 0xC100 15 (IPshared 6 4) IPnil 0 0xAABBCC 0xDDEEFF)
  /\ field_at scenario_5
       (OuterHeader.mkFields 0xC100 15 (IPshared 6 4) IPnil 0 0xAABBCC 0xDDEEFF)
       F_CTAG 10.
Proof.
  assert (succeeds scenario_5
            (OuterHeader.mkFields 0xC100 15 (IPshared 6 4) IPnil 0
               0xAABBCC 0xDDEEFF)) as H by (vm_compute; reflexivity).
  split; [exact H|].
  exact (proj2 (proj2 (proj2 C1_scenario_5_and_widths) scenario_5 _ H) F_CTAG).
Defined.

(** ** Presence accessors *)

Lemma oct5_high_byte (d : Z) :
  to_uint8 (Z.shiftr (Z.land d 0xff00) 8) = high_byte d.
Proof.
  unfold to_uint8, high_byte.
  rewrite <- (Z.shiftr_div_pow2 d 8) by lia.
  apply Z.bits_inj'. intros i Hi.
  rewrite !Z.testbit_mod_pow2 by lia.
  destruct (Z.ltb_spec i 8) as [Hlt|Hge]; [|reflexivity].
  cbn [andb]. rewrite !Z.shiftr_spec, Z.land_spec by lia.
  assert (i = 0 \/ i = 1 \/ i = 2 \/ i = 3 \/ i = 4 \/ i = 5 \/ i = 6
          \/ i = 7)%Z as Hcases by lia.
  replace (Z.testbit 0xff00 (i + 8)) with true; [apply andb_true_r|].
  destruct Hcases as [->|[->|[->|[->|[->|[->|[->| ->]]]]]]]; reflexivity.
Qed.

Lemma HasTEID_bits f :
  OuterHeader.HasTEID f
  = present F_TEID (high_byte (OuterHeader.OuterHeaderCreationDescription f)).
Proof.
  unfold OuterHeader.HasTEID. cbv zeta.
  rewrite oct5_high_byte. masks. reflexivity.
Qed.

Lemma HasIPv4_bits f :
  OuterHeader.HasIPv4 f
  = present F_IPv4 (high_byte (OuterHeader.OuterHeaderCreationDescription f)).
Proof.
  unfold OuterHeader.HasIPv4. cbv zeta.
  rewrite oct5_high_byte. masks. reflexivity.
Qed.

Lemma decoded_high_byte (p : list byte) :
  high_byte (OuterHeader.OuterHeaderCreationDescription (decoded p))
  = flag_octet p.
Proof.
  unfold decoded, high_byte, flag_octet.
  cbn [OuterHeader.OuterHeaderCreationDescription].
  rewrite read16_value. cbn [Nat.add].
  pose proof (at8_range p 0). pose proof (at8_range p 1).
  change (2 ^ 8)%Z with 256%Z.
  rewrite Z.div_add_l, (Z.div_small (at8 p 1)) by lia.
  rewrite Z.add_0_r. apply Z.mod_small. lia.
Qed.

Lemma succeeds_fields (p : list byte) f :
  succeeds p f ->
  forall s,
    if present s (flag_octet p)
    then field_at p f s (cursor (flag_octet p) s)
    else field_unset f s.
Proof.
  intros Hf. apply Parse_success_inv in Hf as (Hl & Hn & ->).
  intros s. destruct (present s (flag_octet p)) eqn:Hs.
  - apply decoded_field_at; assumption.
  - apply decoded_field_unset; assumption.
Qed.

(** C2, as the claim states it, fails: the result has no presence
    accessor for IPv6 (nor for Port, C-TAG and S-TAG), so not every
    sub-field has one. *)
Lemma C2_accessor_counterexample :
  ~ (forall s, exists m,
        presence_method s = Some m /\
        forall f,
          m f = present s
                  (high_byte (OuterHeader.OuterHeaderCreationDescription f)))
  /\ presence_method F_IPv6 = None /\ presence_method F_Port = None
  /\ presence_method F_CTAG = None /\ presence_method F_STAG = None.
Proof.
  split; [|repeat split].
  intros H. destruct (H F_IPv6) as (m & Hm & _). discriminate Hm.
Qed.

(** C2, amended. The result declares presence accessors for TEID and
    IPv4 only. For every description value [HasTEID] holds iff bit 1 or
    bit 2 of the description's high byte is set and [HasIPv4] iff bit 1,
    3 or 5 is. After a successful decode the high byte of the stored
    description is the flag octet, the two accessors agree with what the
    decoder did, and the decoder read each of the six sub-fields iff its
    bits select it (TEID 1 or 2; IPv4 1, 3 or 5; IPv6 2, 4 or 6; Port 3
    or 4; C-TAG 7; S-TAG 8). *)
Theorem C2_presence_accessors :
  (forall f,
     let o := high_byte (OuterHeader.OuterHeaderCreationDescription f) in
     OuterHeader.HasTEID f = bit 1 o || bit 2 o /\
     OuterHeader.HasIPv4 f = bit 1 o || bit 3 o || bit 5 o)
  /\ (forall s m,
        presence_method s = Some m ->
        forall f,
          m f = present s
                  (high_byte (OuterHeader.OuterHeaderCreationDescription f)))
  /\ (forall (p : list byte) f,
        succeeds p f ->
        high_byte (OuterHeader.OuterHeaderCreationDescription f)
        = flag_octet p /\
        OuterHeader.HasTEID f = present F_TEID (flag_octet p) /\
        OuterHeader.HasIPv4 f = present F_IPv4 (flag_octet p) /\
        forall s,
          if present s (flag_octet p)
          then field_at p f s (cursor (flag_octet p) s)
          else field_unset f s).
Proof.
  split; [|split].
  - intros f o. split; [apply HasTEID_bits | apply HasIPv4_bits].
  - intros s m Hm f. destruct s; try discriminate Hm;
      injection Hm as <-; [apply HasTEID_bits | apply HasIPv4_bits].
  - intros p f Hf. pose proof (succeeds_fields p f Hf) as Hall.
    apply Parse_success_inv in Hf as (Hl & Hn & ->).
    rewrite HasTEID_bits, HasIPv4_bits, decoded_high_byte. auto.
Qed.

Lemma C2_presence_accessors_witness :
  succeeds scenario_1 (decoded scenario_1)
  /\ OuterHeader.HasTEID (decoded scenario_1) = true
  /\ OuterHeader.HasIPv4 (decoded scenario_1) = true.
Proof.
  assert (succeeds scenario_1 (decoded scenario_1)) as H
    by (vm_compute; reflexivity).
  split; [exact H|].
  destruct (proj2 (proj2 C2_presence_accessors) scenario_1 _ H)
    as (_ & HT & H4 & _).
  split; [rewrite HT | rewrite H4]; vm_compute; reflexivity.
Defined.

(** ** Prefixes and extensions of a payload *)

Lemma at8_app (p q : list byte) (i : nat) :
  i < length p -> at8 (p ++ q) i = at8 p i.
Proof. intros H. unfold at8. rewrite app_nth1 by exact H. reflexivity. Qed.

Lemma flag_octet_app (p q : list byte) :
  1 <= length p -> flag_octet (p ++ q) = flag_octet p.
Proof. intros H. apply at8_app. lia. Qed.

Lemma read16_app (p q : list byte) (off : nat) :
  off + 2 <= length p -> read16 (p ++ q) off = read16 p off.
Proof. intros H. unfold read16. rewrite !at8_app by lia. reflexivity. Qed.

Lemma read24_app (p q : list byte) (off : nat) :
  off + 3 <= length p -> read24 (p ++ q) off = read24 p off.
Proof. intros H. unfold read24. rewrite !at8_app by lia. reflexivity. Qed.

Lemma read32_app (p q : list byte) (off : nat) :
  off + 4 <= length p -> read32 (p ++ q) off = read32 p off.
Proof. intros H. unfold read32. rewrite !at8_app by lia. reflexivity. Qed.

Lemma window_app (p q : list byte) (off w : nat) :
  off + w <= length p -> window (p ++ q) off w = window p off w.
Proof.
  intros H. unfold window.
  rewrite drop_app_le by lia. rewrite take_app_le; [reflexivity|].
  rewrite length_drop. lia.
Qed.

Lemma decoded_app (p q : list byte) :
  2 <= length p -> need (flag_octet p) <= length p ->
  decoded (p ++ q) = decoded p.
Proof.
  intros Hl Hn. unfold decoded.
  rewrite flag_octet_app by lia. set (o := flag_octet p) in *.
  rewrite read16_app by lia.
  f_equal;
    match goal with
    | |- (if present ?s o then _ else _) = _ =>
        destruct (present s o) eqn:Hs; [|reflexivity];
        pose proof (cursor_le_need o s Hs) as Hc; cbn [width] in Hc
    end;
    first [apply read32_app | apply read16_app | apply read24_app]; lia.
Qed.

Lemma flag_octet_take (p : list byte) (n : nat) :
  1 <= n -> flag_octet (take n p) = flag_octet p.
Proof.
  intros H. unfold flag_octet, at8.
  destruct n; [lia|]. destruct p; reflexivity.
Qed.

Lemma length_take_le (p : list byte) (n : nat) :
  n <= length p -> length (take n p) = n.
Proof. intros H. rewrite length_take. lia. Qed.

Lemma need_ge_2 (o : Z) : 2 <= need o.
Proof. unfold need. lia. Qed.

(** ** Truncated payloads *)

(** C3, as the claim states it, fails on two counts. Scenario 1 decodes,
    and cut to one byte it fails with the too-short error, not with a
    truncated-field error. The payload [00 00 FF] decodes, and cut to two
    bytes it still decodes. *)
Lemma C3_truncation_counterexample :
  (succeeds scenario_1 (decoded scenario_1)
   /\ 1 < length scenario_1
   /\ OuterHeader.ParseOuterHeaderCreation (take 1 scenario_1)
      = Some (None, Some (errorString too_short))
   /\ ~ fails_truncated_field (take 1 scenario_1))
  /\ (succeeds payload_trailing (decoded payload_trailing)
      /\ 2 < length payload_trailing
      /\ succeeds (take 2 payload_trailing) (decoded payload_trailing)
      /\ ~ fails_truncated_field (take 2 payload_trailing)).
Proof.
  split; (split; [vm_compute; reflexivity|]);
    (split; [vm_compute; lia|]); (split; [vm_compute; reflexivity|]);
    intros (s & off & H).
  - rewrite Parse_short_header in H by (cbn; lia).
    destruct s; cbn in H; discriminate H.
  - rewrite Parse_long_enough in H by (vm_compute; lia).
    discriminate H.
Qed.

(** C3, amended. When a payload decodes, cutting it to a length [n] with
    [2 <= n] that is less than 2 plus the summed widths of the sub-fields
    its flags select makes the decoder fail with the truncated-field
    error that names the first sub-field, in canonical order, that no
    longer fits, and the offset of that sub-field. (Cut below two bytes
    it fails with the too-short error; cut to a length that keeps all the
    selected sub-fields it still succeeds with the same result.) *)
Theorem C3_truncation (p : list byte) f (n : nat) :
  succeeds p f ->
  n < length p ->
  let o := flag_octet p in
  (2 <= n -> n < need o ->
   exists s,
     short o n s = true /\
     (forall s', rank s' < rank s -> short o n s' = false) /\
     OuterHeader.ParseOuterHeaderCreation (take n p)
     = Some (None, Some (errorString (truncated_field s (cursor o s)))))
  /\ (n < 2 ->
      OuterHeader.ParseOuterHeaderCreation (take n p)
      = Some (None, Some (errorString too_short)))
  /\ (need o <= n -> succeeds (take n p) f).
Proof.
  intros Hf Hn o.
  apply Parse_success_inv in Hf as (Hl & Hneed & ->).
  pose proof (length_take_le p n ltac:(lia)) as Hlen.
  split; [|split].
  - intros H2 Hlt.
    destruct (first_short o n) as [[s off]|] eqn:E.
    + destruct (first_short_Some o n s off E) as (Hs & -> & Hfirst).
      exists s. split; [exact Hs|]. split; [exact Hfirst|].
      apply Parse_short_field; rewrite Hlen; [exact H2|].
      rewrite flag_octet_take by lia. exact E.
    + apply first_short_None in E; [lia | exact H2].
  - intros H2. apply Parse_short_header. lia.
  - intros Hge. pose proof (need_ge_2 o).
    unfold succeeds.
    rewrite Parse_long_enough
      by (rewrite ?flag_octet_take, Hlen by lia; fold o; lia).
    rewrite <- (take_drop n p) at 2.
    rewrite decoded_app
      by (rewrite ?flag_octet_take, Hlen by lia; fold o; lia).
    reflexivity.
Qed.

Lemma C3_truncation_witness :
  OuterHeader.ParseOuterHeaderCreation (take 7 scenario_1)
  = Some (None, Some (errorString
      "OuterHeaderCreation: insufficient bytes for IPv4 at offset 6")).
Proof.
  destruct (proj1 (C3_truncation scenario_1 (decoded scenario_1) 7
                     ltac:(vm_compute; reflexivity) ltac:(vm_compute; lia))
              ltac:(lia) ltac:(vm_compute; lia)) as (s & Hs & Hfirst & ->).
  destruct s; vm_compute in Hs; try discriminate Hs.
  reflexivity.
Defined.

(** ** Memory independence *)

(** C4 fails on the code. [To4] and [To16] return the sub-slice of the
    payload they are given, so the addresses of the result share the
    caller's array: after [payload[6] = 0xff; payload[7] = 0xff] the IPv4
    address of the result of scenario 1 reads 255.255.0.1 instead of
    10.0.0.1, and after [payload[6] = 0xff] the IPv6 address of the second
    payload starts with ff instead of 00. The scalars are copies. *)
Theorem C4_addresses_share_the_payload :
  (exists f,
     succeeds scenario_1 f
     /\ OuterHeader.IPv4Address f = IPshared 6 4
     /\ IP_bytes scenario_1 (OuterHeader.IPv4Address f)
        = [x0a; x00; x00; x01]
     /\ IP_bytes scenario_1_mutated (OuterHeader.IPv4Address f)
        = [xff; xff; x00; x01])
  /\ (exists f,
        succeeds payload_v6 f
        /\ OuterHeader.IPv6Address f = IPshared 6 16
        /\ nth 0 (IP_bytes payload_v6 (OuterHeader.IPv6Address f)) x00 = x00
        /\ nth 0 (IP_bytes payload_v6_mutated (OuterHeader.IPv6Address f)) x00
           = xff).
Proof.
  split.
  - exists (decoded scenario_1). repeat split; vm_compute; reflexivity.
  - exists (decoded payload_v6). repeat split; vm_compute; reflexivity.
Qed.

(** ** Errors *)

(** C5. When the payload has at least two bytes and some sub-field that
    its flag octet selects does not fit at its cursor, the decoder
    returns a nil result and the error that names the first such
    sub-field, in canonical order, and the offset of that sub-field. *)
Theorem C5_truncated_field (p : list byte) (s : subfield) :
  2 <= length p ->
  short (flag_octet p) (length p) s = true ->
  exists s0,
    short (flag_octet p) (length p) s0 = true /\
    (forall s', rank s' < rank s0 ->
                short (flag_octet p) (length p) s' = false) /\
    OuterHeader.ParseOuterHeaderCreation p
    = Some (None,
            Some (errorString
                    ("OuterHeaderCreation: insufficient bytes for "
                     ++ name s0 ++ " at offset "
                     ++ itoa (cursor (flag_octet p) s0)))).
Proof.
  intros Hl Hs.
  destruct (short_first_short _ _ s Hl Hs) as (s0 & off0 & E).
  destruct (first_short_Some _ _ _ _ E) as (Hs0 & -> & Hfirst).
  exists s0. split; [exact Hs0|]. split; [exact Hfirst|].
  exact (Parse_short_field p s0 _ Hl E).
Qed.

Lemma C5_truncated_field_witness :
  OuterHeader.ParseOuterHeaderCreation scenario_7
  = Some (None,
          Some (errorString
                  "OuterHeaderCreation: insufficient bytes for TEID at offset 2")).
Proof.
  destruct (C5_truncated_field scenario_7 F_IPv4
              ltac:(vm_compute; lia) ltac:(vm_compute; reflexivity))
    as (s0 & Hs0 & Hfirst & ->).
  destruct s0; vm_compute in Hs0; try discriminate Hs0.
  - reflexivity.
  - specialize (Hfirst F_TEID ltac:(vm_compute; lia)).
    vm_compute in Hfirst. discriminate Hfirst.
Defined.

(** C6. A payload of length 0 or 1 makes the decoder return a nil result
    and the truncated-header error, whose message contains "too short";
    the outcome is the same whatever the payload holds. *)
Theorem C6_truncated_header (p : list byte) :
  length p < 2 ->
  OuterHeader.ParseOuterHeaderCreation p
  = Some (None,
          Some (errorString
                  "OuterHeaderCreation payload too short: need at least 2 bytes"))
  /\ Contains
       "OuterHeaderCreation payload too short: need at least 2 bytes"
       "too short" = true.
Proof.
  intros H. split; [apply Parse_short_header; exact H | reflexivity].
Qed.

Lemma C6_truncated_header_witness :
  OuterHeader.ParseOuterHeaderCreation []
  = Some (None,
          Some (errorString
                  "OuterHeaderCreation payload too short: need at least 2 bytes"))
  /\ OuterHeader.ParseOuterHeaderCreation [x01]
     = Some (None,
             Some (errorString
                     "OuterHeaderCreation payload too short: need at least 2 bytes")).
Proof.
  split.
  - exact (proj1 (C6_truncated_header [] ltac:(cbn; lia))).
  - exact (proj1 (C6_truncated_header [x01] ltac:(cbn; lia))).
Defined.

(** ** Overlapping triggers *)

Lemma present_triggers (s : subfield) (o : Z) :
  present s o = (1 <=? triggers s o).
Proof.
  destruct s; unfold present, triggers;
    repeat match goal with
           | |- context [bit ?k o] => destruct (bit k o)
           end; reflexivity.
Qed.

Lemma consumed_once_consumed (o : Z) (flds : list subfield) :
  consumed_once o flds = consumed o flds.
Proof.
  induction flds as [|s rest IH]; [reflexivity|].
  cbn [consumed_once consumed]. rewrite IH, present_triggers. reflexivity.
Qed.

Lemma succeeds_iff (p : list byte) :
  (exists f, succeeds p f)
  <-> 2 <= length p /\ need (flag_octet p) <= length p.
Proof.
  split.
  - intros [f Hf]. apply Parse_success_inv in Hf. tauto.
  - intros [Hl Hn]. exists (decoded p). apply Parse_long_enough; assumption.
Qed.

(** C7. The decoder consumes the width of a selected sub-field once,
    however many of the bits that trigger it are set: a payload of at
    least two bytes decodes iff it holds the two description bytes and,
    once each, the widths of the sub-fields with at least one trigger bit
    set; and each such sub-field is read at the offset reached by
    counting every earlier selected sub-field once. *)
Theorem C7_one_read_per_field (p : list byte) :
  2 <= length p ->
  let o := flag_octet p in
  ((exists f, succeeds p f)
   <-> 2 + consumed_once o canonical_order <= length p)
  /\ (forall f s,
        succeeds p f ->
        1 <= triggers s o ->
        field_at p f s
          (2 + consumed_once o (take (rank s) canonical_order))).
Proof.
  intros Hl o. split.
  - rewrite succeeds_iff, consumed_once_consumed. fold (need o).
    subst o. tauto.
  - intros f s Hf Ht.
    rewrite consumed_once_consumed. fold (cursor o s).
    pose proof (succeeds_fields p f Hf s) as Hs. fold o in Hs.
    rewrite present_triggers in Hs.
    apply Nat.leb_le in Ht. rewrite Ht in Hs. exact Hs.
Qed.

(** With flag octet 0x05 both bit 1 and bit 3 trigger IPv4: twelve bytes
    decode (two, TEID, IPv4 once, Port), and Port is read at offset 10. *)
Lemma C7_one_read_per_field_witness :
  triggers F_IPv4 (flag_octet payload_05) = 2
  /\ length payload_05 = 12
  /\ 2 + consumed_per_trigger (flag_octet payload_05) canonical_order = 16
  /\ (exists f, succeeds payload_05 f)
  /\ field_at payload_05 (decoded payload_05) F_IPv4 6
  /\ field_at payload_05 (decoded payload_05) F_Port 10.
Proof.
  pose proof (C7_one_read_per_field payload_05 ltac:(vm_compute; lia))
    as [Hiff Hat].
  assert (succeeds payload_05 (decoded payload_05)) as Hf
    by (vm_compute; reflexivity).
  split; [vm_compute; reflexivity|].
  split; [vm_compute; reflexivity|].
  split; [vm_compute; reflexivity|].
  split; [exact (proj2 Hiff ltac:(vm_compute; lia))|].
  split.
  - exact (Hat _ F_IPv4 Hf ltac:(vm_compute; lia)).
  - exact (Hat _ F_Port Hf ltac:(vm_compute; lia)).
Defined.

(** With flag octet 0x03 both bit 1 and bit 2 trigger TEID: TEID takes the
    four bytes at offset 2, IPv4 follows at 6 and IPv6 at 10. *)
Example overlapping_TEID_triggers :
  triggers F_TEID (flag_octet payload_03) = 2
  /\ length payload_03 = 2 + 4 + 4 + 16
  /\ succeeds payload_03
       (OuterHeader.mkFields 0x0300 9 (IPshared 6 4) (IPshared 10 16) 0 0 0).
Proof. repeat split; vm_compute; reflexivity. Qed.

(** ** Bounds *)

Lemma read24_range (p : list byte) (off : nat) :
  (0 <= read24 p off < 2 ^ 24)%Z.
Proof.
  rewrite read24_value.
  pose proof (at8_range p off). pose proof (at8_range p (off + 1)).
  pose proof (at8_range p (off + 2)). lia.
Qed.

(** C8. After a successful decode the C-TAG and the S-TAG of the result
    are less than 2^24, whether they were read or not. *)
Theorem C8_tags_fit_24_bits (p : list byte) f :
  succeeds p f ->
  (0 <= OuterHeader.CTag f < 2 ^ 24)%Z /\
  (0 <= OuterHeader.STag f < 2 ^ 24)%Z.
Proof.
  intros Hf. apply Parse_success_inv in Hf as (_ & _ & ->).
  unfold decoded. cbn [OuterHeader.CTag OuterHeader.STag].
  split.
  - destruct (present F_CTAG (flag_octet p));
      [apply read24_range | lia].
  - destruct (present F_STAG (flag_octet p));
      [apply read24_range | lia].
Qed.

Lemma C8_tags_fit_24_bits_witness :
  succeeds scenario_5 (decoded scenario_5)
  /\ (0 <= OuterHeader.CTag (decoded scenario_5) < 2 ^ 24)%Z
  /\ (0 <= OuterHeader.STag (decoded scenario_5) < 2 ^ 24)%Z.
Proof.
  assert (succeeds scenario_5 (decoded scenario_5)) as H
    by (vm_compute; reflexivity).
  split; [exact H|]. exact (C8_tags_fit_24_bits scenario_5 _ H).
Defined.

(** ** Trailing bytes *)

Lemma IP_bytes_app (p q : list byte) (off w : nat) :
  off + w <= length p ->
  IP_bytes (p ++ q) (IPshared off w) = IP_bytes p (IPshared off w).
Proof. intros H. exact (window_app p q off w H). Qed.

(** C9. The decoder does not look at what follows the selected
    sub-fields: when a payload decodes, the payload followed by any bytes
    decodes to the same result, with the same address bytes; and a
    payload decodes iff it has the two description bytes and at least 2
    plus the summed widths of the sub-fields its flag octet selects. *)
Theorem C9_trailing_bytes :
  (forall (p extra : list byte) f,
     succeeds p f ->
     succeeds (p ++ extra) f
     /\ IP_bytes (p ++ extra) (OuterHeader.IPv4Address f)
        = IP_bytes p (OuterHeader.IPv4Address f)
     /\ IP_bytes (p ++ extra) (OuterHeader.IPv6Address f)
        = IP_bytes p (OuterHeader.IPv6Address f))
  /\ (forall p : list byte,
        (exists f, succeeds p f)
        <-> 2 <= length p /\ need (flag_octet p) <= length p).
Proof.
  split; [|exact succeeds_iff].
  intros p extra f Hf.
  apply Parse_success_inv in Hf as (Hl & Hn & ->).
  split; [|split].
  - unfold succeeds. rewrite <- (decoded_app p extra Hl Hn).
    apply Parse_long_enough; rewrite ?flag_octet_app, ?length_app by lia; lia.
  - unfold decoded. cbn [OuterHeader.IPv4Address].
    destruct (present F_IPv4 (flag_octet p)) eqn:Hs; [|reflexivity].
    pose proof (cursor_le_need _ _ Hs). cbn [width] in *.
    apply IP_bytes_app. lia.
  - unfold decoded. cbn [OuterHeader.IPv6Address].
    destruct (present F_IPv6 (flag_octet p)) eqn:Hs; [|reflexivity].
    pose proof (cursor_le_need _ _ Hs). cbn [width] in *.
    apply IP_bytes_app. lia.
Qed.

Lemma C9_trailing_bytes_witness :
  succeeds scenario_1 (decoded scenario_1)
  /\ succeeds (scenario_1 ++ [xde; xad]) (decoded scenario_1).
Proof.
  assert (succeeds scenario_1 (decoded scenario_1)) as H
    by (vm_compute; reflexivity).
  split; [exact H|].
  exact (proj1 (proj1 C9_trailing_bytes scenario_1 [xde; xad] _ H)).
Defined.

(** ** The two copies of the decoder *)

(** C10. On every payload the decoder of [pfcp/outer_header.go] and its
    earlier copy both return (neither panics), both succeed or both
    fail, a failure carries the same message, and a success the same
    description, TEID, IPv4 and IPv6 address, port, C-TAG and S-TAG. *)
Theorem C10_copies_agree (p : list byte) :
  agree (OuterHeader.ParseOuterHeaderCreation p)
        (Part000.ParseOuterHeaderCreation p).
Proof.
  rewrite Parse_outcome, Parse000_outcome.
  unfold agree, outcome, outcome000.
  destruct (length p <? 2); [reflexivity|].
  destruct (first_short (flag_octet p) (length p)) as [[s off]|];
    [reflexivity|].
  repeat split.
Qed.

(** ** Further properties of the decoder *)

(** X1. The decoder never panics: on every payload it returns, and it
    returns either a result and no error, or no result and an error. *)
Theorem Parse_returns_result_or_error (p : list byte) :
  (exists f,
     OuterHeader.ParseOuterHeaderCreation p = Some (Some f, None))
  \/ (exists e,
        OuterHeader.ParseOuterHeaderCreation p = Some (None, Some e)).
Proof.
  rewrite Parse_outcome. unfold outcome.
  destruct (length p <? 2); [right; eauto|].
  destruct (first_short (flag_octet p) (length p)) as [[s off]|];
    [right | left]; eauto.
Qed.

Lemma HasTEID000_bits g :
  Part000.HasTEID g
  = present F_TEID (high_byte (Part000.OuterHeaderCreationDescription g)).
Proof.
  unfold Part000.HasTEID. cbv zeta.
  rewrite oct5_high_byte. masks. reflexivity.
Qed.

Lemma HasIPv4000_bits g :
  Part000.HasIPv4 g
  = present F_IPv4 (high_byte (Part000.OuterHeaderCreationDescription g)).
Proof.
  unfold Part000.HasIPv4. cbv zeta.
  rewrite oct5_high_byte. masks. reflexivity.
Qed.

Lemma Parse000_success_inv (p : list byte) g :
  succeeds000 p g ->
  2 <= length p /\ need (flag_octet p) <= length p /\ g = decoded000 p.
Proof.
  unfold succeeds000. rewrite Parse000_outcome. unfold outcome000.
  destruct (Nat.ltb_spec (length p) 2) as [Hl|Hl]; [discriminate|].
  destruct (first_short (flag_octet p) (length p)) as [[s off]|] eqn:E;
    [discriminate|].
  intros H. injection H as <-.
  apply first_short_None in E; [|exact Hl]. auto.
Qed.

(** X2. After a successful decode by the earlier copy, its [HasTEID]
    holds iff bit 1 or bit 2 of the payload's first byte is set, its
    [HasIPv4] iff bit 1, 3 or 5 is, and its IPv4 address is nil exactly
    when [HasIPv4] is false. *)
Theorem Part000_accessors_after_decode (p : list byte) g :
  succeeds000 p g ->
  let o := flag_octet p in
  Part000.HasTEID g = bit 1 o || bit 2 o
  /\ Part000.HasIPv4 g = bit 1 o || bit 3 o || bit 5 o
  /\ (Part000.IPv4Address g = IPnil <-> Part000.HasIPv4 g = false).
Proof.
  intros Hg o. apply Parse000_success_inv in Hg as (Hl & Hn & ->).
  rewrite HasTEID000_bits, HasIPv4000_bits.
  change (Part000.OuterHeaderCreationDescription (decoded000 p))
    with (OuterHeader.OuterHeaderCreationDescription (decoded p)).
  rewrite decoded_high_byte. fold o.
  split; [reflexivity|]. split; [reflexivity|].
  unfold decoded000. cbn [Part000.IPv4Address]. fold o.
  destruct (present F_IPv4 o); split; intros H;
    first [reflexivity | discriminate H].
Qed.

Lemma Part000_accessors_after_decode_witness :
  succeeds000 scenario_1 (decoded000 scenario_1)
  /\ Part000.HasTEID (decoded000 scenario_1) = true
  /\ Part000.HasIPv4 (decoded000 scenario_1) = true.
Proof.
  assert (succeeds000 scenario_1 (decoded000 scenario_1)) as H
    by (vm_compute; reflexivity).
  split; [exact H|].
  destruct (Part000_accessors_after_decode scenario_1 _ H) as (HT & H4 & _).
  split; [rewrite HT | rewrite H4]; vm_compute; reflexivity.
Defined.

(** X3. Whether the decoder succeeds, and the error it returns when it
    does not, depend only on the length of the payload and on its first
    byte. *)
Theorem outcome_depends_on_length_and_flags (p q : list byte) :
  length p = length q ->
  nth 0 p x00 = nth 0 q x00 ->
  ((exists f, succeeds p f) <-> (exists f, succeeds q f))
  /\ (forall e,
        OuterHeader.ParseOuterHeaderCreation p = Some (None, Some e)
        <-> OuterHeader.ParseOuterHeaderCreation q = Some (None, Some e)).
Proof.
  intros Hlen Hflag.
  assert (flag_octet p = flag_octet q) as Ho
    by (unfold flag_octet, at8; rewrite Hflag; reflexivity).
  split.
  - rewrite !succeeds_iff, Hlen, Ho. tauto.
  - intros e. rewrite !Parse_outcome. unfold outcome.
    rewrite Hlen, Ho.
    destruct (length q <? 2); [tauto|].
    destruct (first_short (flag_octet q) (length q)) as [[s off]|];
      [tauto|].
    split; intros H; discriminate H.
Qed.

Lemma outcome_depends_on_length_and_flags_witness :
  OuterHeader.ParseOuterHeaderCreation short_a
  = Some (None, Some (errorString
      "OuterHeaderCreation: insufficient bytes for IPv4 at offset 6"))
  /\ OuterHeader.ParseOuterHeaderCreation short_b
     = Some (None, Some (errorString
         "OuterHeaderCreation: insufficient bytes for IPv4 at offset 6")).
Proof.
  assert (OuterHeader.ParseOuterHeaderCreation short_a
          = Some (None, Some (errorString
              "OuterHeaderCreation: insufficient bytes for IPv4 at offset 6")))
    as Ha by (vm_compute; reflexivity).
  split; [exact Ha|].
  exact (proj1 (proj2 (outcome_depends_on_length_and_flags short_a short_b
                         ltac:(reflexivity) ltac:(reflexivity)) _) Ha).
Defined.

Lemma need_le_max (o : Z) : need o <= max_need.
Proof. unfold max_need. layout. presence o; lia. Qed.

(** X4. A payload of 34 bytes or more always decodes, whatever its
    flags; 34 cannot be lowered: 33 bytes of 0xff fail on the S-TAG at
    offset 31. *)
Theorem long_payload_always_decodes :
  (forall p : list byte, max_need <= length p -> exists f, succeeds p f)
  /\ max_need = 34
  /\ OuterHeader.ParseOuterHeaderCreation (payload_ff 33)
     = Some (None, Some (errorString
         "OuterHeaderCreation: insufficient bytes for S-TAG at offset 31")).
Proof.
  split; [|split; [reflexivity | vm_compute; reflexivity]].
  intros p H. apply succeeds_iff.
  pose proof (need_le_max (flag_octet p)). unfold max_need in *. lia.
Qed.

Lemma long_payload_always_decodes_witness :
  exists f, succeeds (payload_ff 34) f.
Proof.
  exact (proj1 long_payload_always_decodes (payload_ff 34)
           ltac:(vm_compute; lia)).
Defined.

Lemma first_short_offset (o : Z) (l : nat) (s : subfield) (off : nat) :
  2 <= l -> first_short o l = Some (s, off) ->
  present s o = true /\ 2 <= off <= l /\ l < off + width s.
Proof.
  intros Hl Hfs. unfold first_short in Hfs.
  cbn [first_short_from canonical_order width] in Hfs.
  presence o; compare_lengths_in Hfs; try discriminate Hfs;
    injection Hfs as <- <-; cbn [width];
    (split; [assumption | lia]).
Qed.

Lemma message_names_field (s : subfield) (off : nat) :
  Contains (truncated_field s off) (name s) = true.
Proof. destruct s; vm_compute; reflexivity. Qed.

(** X5. Every failure is one of two. Either the payload has fewer than
    two bytes and the error is the too-short one; or the error is the
    truncated-field one for a sub-field that the flag octet selects, its
    message contains the name of that sub-field, and the offset it
    reports lies inside the payload or at its end, fewer bytes than the
    width of the sub-field being left from there. *)
Theorem failure_report (p : list byte) (e : error) :
  OuterHeader.ParseOuterHeaderCreation p = Some (None, Some e) ->
  (length p < 2 /\ e = errorString too_short)
  \/ (exists s off,
        e = errorString (truncated_field s off)
        /\ present s (flag_octet p) = true
        /\ off = cursor (flag_octet p) s
        /\ 2 <= off <= length p
        /\ length p < off + width s
        /\ Contains (Error e) (name s) = true).
Proof.
  rewrite Parse_outcome. unfold outcome.
  destruct (Nat.ltb_spec (length p) 2) as [Hl|Hl].
  - intros H. injection H as <-. left. split; [exact Hl | reflexivity].
  - destruct (first_short (flag_octet p) (length p)) as [[s off]|] eqn:E;
      [|discriminate].
    intros H. injection H as <-. right. exists s, off.
    destruct (first_short_offset _ _ _ _ Hl E) as (Hp & Hoff & Hshort).
    destruct (first_short_Some _ _ _ _ E) as (_ & Hc & _).
    repeat split; try assumption; try lia.
    apply message_names_field.
Qed.

Lemma failure_report_witness :
  exists s off,
    errorString "OuterHeaderCreation: insufficient bytes for TEID at offset 2"
    = errorString (truncated_field s off)
    /\ present s (flag_octet scenario_7) = true
    /\ off = cursor (flag_octet scenario_7) s
    /\ 2 <= off <= length scenario_7
    /\ length scenario_7 < off + width s
    /\ Contains
         (Error (errorString
            "OuterHeaderCreation: insufficient bytes for TEID at offset 2"))
         (name s) = true.
Proof.
  destruct (failure_report scenario_7 _
              (ltac:(vm_compute; reflexivity)
                : OuterHeader.ParseOuterHeaderCreation scenario_7
                  = Some (None, Some (errorString
                      "OuterHeaderCreation: insufficient bytes for TEID at offset 2"))))
    as [[Hl _]|H].
  - vm_compute in Hl. lia.
  - exact H.
Defined.





(** X7. In a decoded result the IPv4 address is nil when [HasIPv4] is
    false and has exactly 4 bytes when it is true; the IPv6 address is
    nil when none of the bits 2, 4 and 6 of the flag octet is set and has
    exactly 16 bytes otherwise. *)
Theorem decoded_address_lengths (p : list byte) f :
  succeeds p f ->
  (if OuterHeader.HasIPv4 f
   then length (IP_bytes p (OuterHeader.IPv4Address f)) = 4
   else OuterHeader.IPv4Address f = IPnil)
  /\ (if present F_IPv6 (flag_octet p)
      then length (IP_bytes p (OuterHeader.IPv6Address f)) = 16
      else OuterHeader.IPv6Address f = IPnil).
Proof.
  intros Hf. apply Parse_success_inv in Hf as (Hl & Hn & ->).
  rewrite HasIPv4_bits, decoded_high_byte.
  unfold decoded. cbn [OuterHeader.IPv4Address OuterHeader.IPv6Address].
  split.
  - destruct (present F_IPv4 (flag_octet p)) eqn:Hs; [|reflexivity].
    pose proof (cursor_le_need _ _ Hs). cbn [width] in *.
    exact (window_length p (cursor (flag_octet p) F_IPv4) 4 ltac:(lia)).
  - destruct (present F_IPv6 (flag_octet p)) eqn:Hs; [|reflexivity].
    pose proof (cursor_le_need _ _ Hs). cbn [width] in *.
    exact (window_length p (cursor (flag_octet p) F_IPv6) 16 ltac:(lia)).
Qed.

Lemma decoded_address_lengths_witness :
  length (IP_bytes payload_03 (OuterHeader.IPv4Address (decoded payload_03)))
  = 4
  /\ length (IP_bytes payload_03
               (OuterHeader.IPv6Address (decoded payload_03))) = 16.
Proof.
  exact (decoded_address_lengths payload_03 _ ltac:(vm_compute; reflexivity)).
Defined.

Lemma TEID_or_Port_selects_address (o : Z) :
  present F_TEID o || present F_Port o = true ->
  present F_IPv4 o || present F_IPv6 o = true.
Proof.
  unfold present.
  destruct (bit 1 o), (bit 2 o), (bit 3 o), (bit 4 o), (bit 5 o), (bit 6 o);
    cbn; intros H; first [reflexivity | discriminate H].
Qed.

(** X8. A decoded TEID or port never comes without an address: when
    [HasTEID] holds for a decoded result, or the flag octet selects the
    port, the IPv4 address or the IPv6 address of the result is not
    nil. *)
Theorem decoded_TEID_or_port_has_address (p : list byte) f :
  succeeds p f ->
  OuterHeader.HasTEID f = true \/ present F_Port (flag_octet p) = true ->
  OuterHeader.IPv4Address f <> IPnil \/ OuterHeader.IPv6Address f <> IPnil.
Proof.
  intros Hf Hsel. apply Parse_success_inv in Hf as (Hl & Hn & ->).
  rewrite HasTEID_bits, decoded_high_byte in Hsel.
  assert (present F_TEID (flag_octet p) || present F_Port (flag_octet p)
          = true) as Hor
    by (apply orb_true_iff; exact Hsel).
  apply TEID_or_Port_selects_address, orb_true_iff in Hor.
  unfold decoded. cbn [OuterHeader.IPv4Address OuterHeader.IPv6Address].
  destruct Hor as [H4|H6]; [left | right].
  - destruct (present F_IPv4 (flag_octet p));
      [discriminate | discriminate H4].
  - destruct (present F_IPv6 (flag_octet p));
      [discriminate | discriminate H6].
Qed.

Lemma decoded_TEID_or_port_has_address_witness :
  OuterHeader.IPv4Address (decoded scenario_1) <> IPnil
  \/ OuterHeader.IPv6Address (decoded scenario_1) <> IPnil.
Proof.
  assert (succeeds scenario_1 (decoded scenario_1)) as Hf
    by (vm_compute; reflexivity).
  assert (OuterHeader.HasTEID (decoded scenario_1) = true) as Ht
    by (vm_compute; reflexivity).
  exact (decoded_TEID_or_port_has_address scenario_1 _ Hf (or_introl Ht)).
Defined.

(** ** Writes to the payload after the decode *)

Lemma window_insert_inside (p : list byte) (c w i : nat) (b : byte) :
  c <= i -> i < c + w ->
  window (<[i := b]> p) c w = <[i - c := b]> (window p c w).
Proof.
  intros H1 H2. unfold window.
  rewrite drop_insert_ge by exact H1.
  apply take_insert_lt. lia.
Qed.

Lemma window_insert_outside (p : list byte) (c w i : nat) (b : byte) :
  i < c \/ c + w <= i ->
  window (<[i := b]> p) c w = window p c w.
Proof.
  intros [H|H]; unfold window.
  - rewrite drop_insert_lt by exact H. reflexivity.
  - rewrite drop_insert_ge by lia. apply take_insert_ge. lia.
Qed.

Lemma window_insert (p : list byte) (c w i : nat) (b : byte) :
  window (<[i := b]> p) c w
  = if (c <=? i) && (i <? c + w)
    then <[i - c := b]> (window p c w)
    else window p c w.
Proof.
  destruct (Nat.leb_spec c i) as [H1|H1];
    destruct (Nat.ltb_spec i (c + w)) as [H2|H2]; cbn [andb].
  - apply window_insert_inside; assumption.
  - apply window_insert_outside. right. exact H2.
  - apply window_insert_outside. left. exact H1.
  - apply window_insert_outside. left. exact H1.
Qed.

(** X9. The addresses of a decoded result are windows onto the caller's
    payload. After the assignment [payload[i] = b], the IPv4 address of
    the result (when [HasIPv4] holds) reads [b] at position [i - c] if
    [i] lies in the four bytes from the cursor [c] of the IPv4 sub-field,
    and is unchanged otherwise; likewise the IPv6 address and the sixteen
    bytes from its cursor. *)
Theorem writes_show_through_addresses (p : list byte) f (i : nat) (b : byte) :
  succeeds p f ->
  let o := flag_octet p in
  (OuterHeader.HasIPv4 f = true ->
   IP_bytes (<[i := b]> p) (OuterHeader.IPv4Address f)
   = if (cursor o F_IPv4 <=? i) && (i <? cursor o F_IPv4 + 4)
     then <[i - cursor o F_IPv4 := b]>
            (IP_bytes p (OuterHeader.IPv4Address f))
     else IP_bytes p (OuterHeader.IPv4Address f))
  /\ (present F_IPv6 o = true ->
      IP_bytes (<[i := b]> p) (OuterHeader.IPv6Address f)
      = if (cursor o F_IPv6 <=? i) && (i <? cursor o F_IPv6 + 16)
        then <[i - cursor o F_IPv6 := b]>
               (IP_bytes p (OuterHeader.IPv6Address f))
        else IP_bytes p (OuterHeader.IPv6Address f)).
Proof.
  intros Hf o. apply Parse_success_inv in Hf as (Hl & Hn & ->).
  rewrite HasIPv4_bits, decoded_high_byte. fold o.
  unfold decoded. cbn [OuterHeader.IPv4Address OuterHeader.IPv6Address].
  fold o. split; intros Hs; rewrite Hs.
  - exact (window_insert p (cursor o F_IPv4) 4 i b).
  - exact (window_insert p (cursor o F_IPv6) 16 i b).
Qed.

Lemma writes_show_through_addresses_witness :
  IP_bytes (<[6 := xff]> scenario_1)
    (OuterHeader.IPv4Address (decoded scenario_1))
  = [xff; x00; x00; x01]
  /\ IP_bytes (<[3 := xff]> scenario_1)
       (OuterHeader.IPv4Address (decoded scenario_1))
     = [x0a; x00; x00; x01].
Proof.
  assert (succeeds scenario_1 (decoded scenario_1)) as Hf
    by (vm_compute; reflexivity).
  assert (OuterHeader.HasIPv4 (decoded scenario_1) = true) as H4
    by (vm_compute; reflexivity).
  split.
  - rewrite (proj1 (writes_show_through_addresses scenario_1 _ 6 xff Hf) H4).
    vm_compute. reflexivity.
  - rewrite (proj1 (writes_show_through_addresses scenario_1 _ 3 xff Hf) H4).
    vm_compute. reflexivity.
Defined.

(** ** The accessors as masks of the description *)

Lemma testbit_high_byte (d i : Z) :
  (0 <= i < 8)%Z -> Z.testbit (high_byte d) i = Z.testbit d (i + 8).
Proof.
  intros Hi. unfold high_byte.
  rewrite Z.testbit_mod_pow2 by lia.
  destruct (Z.ltb_spec i 8) as [_|H]; [|lia].
  cbn [andb]. apply Z.div_pow2_bits; lia.
Qed.

Lemma lor_eqb_0 (a b : Z) :
  (Z.lor a b =? 0)%Z = (a =? 0)%Z && (b =? 0)%Z.
Proof.
  pose proof (Z.lor_eq_0_iff a b) as H.
  destruct (Z.eqb_spec (Z.lor a b) 0) as [E|E],
           (Z.eqb_spec a 0) as [Ea|Ea], (Z.eqb_spec b 0) as [Eb|Eb];
    cbn [andb]; try reflexivity; exfalso; tauto.
Qed.

(** X10. [HasTEID] and [HasIPv4] look at the description through a
    mask: for every description, [HasTEID] holds iff
    [description & 0x0300] is not zero and [HasIPv4] iff
    [description & 0x1500] is not zero; the low byte plays no part. *)
Theorem accessors_as_masks f :
  let d := OuterHeader.OuterHeaderCreationDescription f in
  OuterHeader.HasTEID f = negb (Z.land d 0x0300 =? 0)%Z
  /\ OuterHeader.HasIPv4 f = negb (Z.land d 0x1500 =? 0)%Z.
Proof.
  intros d. rewrite HasTEID_bits, HasIPv4_bits. fold d.
  unfold present, bit. rewrite !testbit_high_byte by lia.
  split.
  - change 0x0300%Z with (Z.lor (2 ^ 8) (2 ^ 9)).
    rewrite Z.land_lor_distr_r, lor_eqb_0, negb_andb.
    rewrite !land_pow2_testbit by lia. reflexivity.
  - change 0x1500%Z with (Z.lor (Z.lor (2 ^ 8) (2 ^ 10)) (2 ^ 12)).
    rewrite !Z.land_lor_distr_r, !lor_eqb_0, !negb_andb.
    rewrite !land_pow2_testbit by lia. reflexivity.
Qed.
